(** * SurfSplitNavigator: a shallow embedding of [src/createSurfSplitNavigator.js]

    The navigator shows its screens either as a master/detail split layout
    or as a plain stack, depending on the window width.  This development
    embeds the component function, its two effects, the fallback
    window-dimension hook and the options handed to the navigation builder,
    and proves the properties the specification states about them.

    Conventions.
    - A JavaScript [number] that holds a finite value is a rational [Q];
      [===] on numbers is [Qeq_bool], [>] is the negation of [Qle_bool].
      (NaN and the infinities are outside the model.)
    - A JavaScript object used as a dictionary is a [gmap string _]; a
      nested object literal is an association list.
    - An array is a [list]; array positions are [nat].
    - [throw] is the [Threw] result of the [Outcome] monad.
    - A component instance is a record of its hook cells; one render
      followed by its effects is [commit]. *)

From Stdlib Require Import QArith Bool List.
From stdpp Require Import base decidable option list strings gmap.
Import ListNotations.

Local Set Warnings "-register-all".
Local Open Scope string_scope.
Local Open Scope list_scope.

(** * Part I: the embedding *)

(** ** JavaScript values *)

Definition number := Q.
Bind Scope Q_scope with number.

(** [a === b] on numbers. *)
Definition strict_eq (a b : number) : bool := Qeq_bool a b.

(** [a !== b] on numbers. *)
Definition strict_ne (a b : number) : bool := negb (strict_eq a b).

(** [a > b] on numbers. *)
Definition gt (a b : number) : bool := negb (Qle_bool a b).

Inductive JSValue : Type :=
| VUndefined
| VNull
| VBool (b : bool)
| VNumber (n : number)
| VString (s : string)
| VObject (fields : list (string * JSValue)).

(** The test [v || ...] and [if (v)] perform. *)
Definition truthy (v : JSValue) : bool :=
  match v with
  | VUndefined | VNull => false
  | VBool b => b
  | VNumber n => negb (Qeq_bool n 0)
  | VString s => negb (String.eqb s "")
  | VObject _ => true
  end.

(** [o.k] on the fields of an object literal. *)
Fixpoint field (k : string) (fields : list (string * JSValue)) : JSValue :=
  match fields with
  | [] => VUndefined
  | (k', v) :: rest => if String.eqb k k' then v else field k rest
  end.

(** [v.k] for a [v] that is neither [undefined] nor [null]: a primitive has
    no such property. *)
Definition get (v : JSValue) (k : string) : JSValue :=
  match v with
  | VObject fields => field k fields
  | _ => VUndefined
  end.

(** [array.includes(x)] on an array of numbers that are array positions. *)
Definition includes (array : list nat) (x : nat) : bool :=
  existsb (Nat.eqb x) array.

(** ** Exceptions *)

Variant Exception : Type :=
| Error (message : string)
| TypeError (property : string) (* reading [property] of [undefined] *).

Inductive Outcome (A : Type) : Type :=
| Returned (a : A)
| Threw (e : Exception).

Arguments Returned {A} a.
Arguments Threw {A} e.

(** Sequencing: an exception ends the computation. Written [x ← m; k]. *)
#[global] Instance Outcome_bind : MBind Outcome :=
  fun A B (k : A -> Outcome B) (m : Outcome A) =>
    match m with
    | Returned a => k a
    | Threw e => Threw e
    end.

(** [array.map((x, i) => f(i, x))] for a callback that may throw: elements
    are visited in order, the first exception ends the call. [i] is the
    position of the head of [array]. *)
Fixpoint array_map {A B : Type} (f : nat -> A -> Outcome B) (i : nat)
    (array : list A) : Outcome (list B) :=
  match array with
  | [] => Returned []
  | x :: rest =>
      y ← f i x;
      ys ← array_map f (S i) rest;
      Returned (y :: ys)
  end.

(** ** Window dimensions and the split detector *)

(** What [Dimensions.get('window')] and [useWindowDimensions()] return. *)
Record Dimensions : Type := {
  width : number;
  height : number;
  scale : number;
  fontScale : number;
}.

(** [const getIsSplitted = ({ width }, mainWidth) => width > mainWidth;] *)
Definition getIsSplitted (dimensions : Dimensions) (mainWidth : number) : bool :=
  gt (width dimensions) mainWidth.

(** ** The fallback dimension hook, [useWindowDimensionsFallback] *)

Module Fallback.

(** The test inside [handleChange]: some field of the two differs. *)
Definition differs (dimensions window : Dimensions) : bool :=
  strict_ne (width dimensions) (width window)
  || strict_ne (height dimensions) (height window)
  || strict_ne (scale dimensions) (scale window)
  || strict_ne (fontScale dimensions) (fontScale window).

(** [handleChange({ window })], closed over the [dimensions] of the render
    that created it: [Some window] is the call [setDimensions(window)],
    [None] is no call. *)
Definition handleChange (dimensions window : Dimensions) : option Dimensions :=
  if differs dimensions window then Some window else None.

(** The hook instance: its [useState] cell, and the listener registered
    with [Dimensions.addEventListener], identified by the [dimensions] its
    closure captured ([None]: nothing is registered). *)
Record Hook : Type := {
  dimensions : Dimensions;
  listener : option Dimensions;
}.

(** [setDimensions] as applied to the state cell. *)
Definition setDimensions (h : Hook) (request : option Dimensions) : Hook :=
  match request with
  | Some window => {| dimensions := window; listener := listener h |}
  | None => h
  end.

(** First render: [useState(() => Dimensions.get('window'))]; no effect has
    run yet, so nothing listens. [current] is what [Dimensions.get] returns
    at that moment. *)
Definition render (current : Dimensions) : Hook :=
  {| dimensions := current; listener := None |}.

(** The effect body, run after a render whose state is [dimensions h]:
    register [handleChange], then call it on a fresh [Dimensions.get].
    A previous registration was removed by the cleanup of the effect it
    belonged to. [current] is what [Dimensions.get] returns now. *)
Definition effect (h : Hook) (current : Dimensions) : Hook :=
  let subscribed := {| dimensions := dimensions h;
                       listener := Some (dimensions h) |} in
  setDimensions subscribed (handleChange (dimensions h) current).

(** A ['change'] notification carrying [window]: the registered listener,
    if any, handles it. *)
Definition notify (h : Hook) (window : Dimensions) : Hook :=
  match listener h with
  | Some captured => setDimensions h (handleChange captured window)
  | None => h
  end.

(** The four fields agree under [===]. *)
Definition same_fields (a b : Dimensions) : Prop :=
  (width a == width b)%Q /\ (height a == height b)%Q /\
  (scale a == scale b)%Q /\ (fontScale a == fontScale b)%Q.

End Fallback.

(** ** Navigation state, as the navigator reads it *)

(** A route; the navigator reads [key] and [name] only. *)
Record Route : Type := {
  key : string;
  name : string;
}.

Record NavigationState : Type := {
  routes : list Route;
  index : nat;
  type : string;
}.

#[global] Instance Route_eq_dec : EqDecision Route.
Proof. solve_decision. Defined.

#[global] Instance NavigationState_eq_dec : EqDecision NavigationState.
Proof. solve_decision. Defined.

(** What [descriptor.render()] returns: the screen's element, opaque to the
    navigator. *)
Variant ScreenElement : Type :=
| screen (content : string).

Record Descriptor : Type := {
  render : ScreenElement;
}.

(** The [navigation] helpers object returned by the navigation builder. *)
Variant Navigation : Type :=
| helpers (navigator : string).

(** ** The imports from [./SurfSplitRouter] *)

(** Modelled from the spec: the message [SetMode(isSplit, targetRouteName)]
    that [SurfSplitActions.setSplitted] builds; the action creator is
    defined in [SurfSplitRouter.js], which is not among the sources. *)
Variant SurfSplitAction : Type :=
| setSplitted (isSplitted : bool) (initialRouteName : string).

#[global] Instance SurfSplitAction_eq_dec : EqDecision SurfSplitAction.
Proof. solve_decision. Defined.

(** The module [./SurfSplitRouter] as the navigator uses it: the constant
    [MAIN_SCREEN_NAME], and the router's reducer, through which
    [navigation.dispatch] turns an action into the next state. *)
Class SurfSplitRouter : Type := {
  MAIN_SCREEN_NAME : string;
  getStateForAction : NavigationState -> SurfSplitAction -> NavigationState;
}.

(** The mode tag of [NavigationState.type]. *)
Definition modeTag (isSplitted : bool) : string :=
  if isSplitted then "split" else "stack".

(** Modelled from the spec: the contract the store must honour for
    [SetMode] (section 4.3): after the message the state is in the mode the
    message names. The reducer itself is in [SurfSplitRouter.js]. *)
Definition honoursSetSplitted (R : SurfSplitRouter) : Prop :=
  forall state isSplitted target,
    type (getStateForAction state (setSplitted isSplitted target))
    = modeTag isSplitted.

(** ** Styles *)

(** [StyleSheet.create({ body, main, detail, pages })] at the end of the file. *)
Definition styles : JSValue :=
  VObject
    [ ("body", VObject [ ("flex", VNumber 1);
                         ("flexDirection", VString "row");
                         ("padding", VNumber 10) ]);
      ("main", VObject [ ("backgroundColor", VString "white");
                         ("minWidth", VNumber 300);
                         ("marginRight", VNumber 10);
                         ("borderRadius", VNumber 5) ]);
      ("detail", VObject [ ("backgroundColor", VString "white");
                           ("flex", VNumber 1);
                           ("borderRadius", VNumber 5) ]);
      ("pages", VObject [ ("flex", VNumber 1) ]) ].

(** React Native's [StyleSheet.absoluteFill]. *)
Definition absoluteFill : JSValue :=
  VObject [ ("position", VString "absolute");
            ("left", VNumber 0); ("right", VNumber 0);
            ("top", VNumber 0); ("bottom", VNumber 0) ].

(** ** Props and the options handed to [useNavigationBuilder] *)

(** [screenOptions] is [None] when the caller passes [undefined] or [null]. *)
Record Props : Type := {
  initialRouteName : string;
  mainWidth : number;
  screenOptions : option (gmap string JSValue);
}.

(** [screenOptions || {}] *)
Definition screenOptionsOrEmpty (props : Props) : gmap string JSValue :=
  default ∅ (screenOptions props).

(** [splitStylesFromOptions], the first half of the destructuring. *)
Definition splitStylesFromOptions (props : Props) : JSValue :=
  default VUndefined (screenOptionsOrEmpty props !! "splitStyles").

(** [...restScreenOptions], the second half. *)
Definition restScreenOptions (props : Props) : gmap string JSValue :=
  delete "splitStyles" (screenOptionsOrEmpty props).

(** [splitStylesFromOptions || { body: styles.body, main: ..., detail: ... }] *)
Definition splitStyles (props : Props) : JSValue :=
  if truthy (splitStylesFromOptions props) then splitStylesFromOptions props
  else VObject [ ("body", get styles "body");
                 ("main", get styles "main");
                 ("detail", get styles "detail") ].

(** The second argument of [useNavigationBuilder] ([children] left out). *)
Record BuilderOptions : Type := {
  builder_initialRouteName : string;
  builder_screenOptions : gmap string JSValue;
  builder_isSplitted : bool;
}.

Definition builderOptions (props : Props) (dimensions : Dimensions)
    : BuilderOptions :=
  {| builder_initialRouteName := initialRouteName props;
     builder_screenOptions :=
       <["headerShown" := VBool false]> (restScreenOptions props);
     builder_isSplitted := getIsSplitted dimensions (mainWidth props) |}.

(** ** The rendered tree *)

(** [<ResourceSavingScene key style isVisible>{children}</ResourceSavingScene>] *)
Record ResourceSavingScene : Type := {
  scene_key : string;
  scene_style : JSValue;
  isVisible : bool;
  scene_children : ScreenElement;
}.

(** The tree of the split branch: the context provider's value, the three
    [View]s with their styles, the main pane's child, and the children of
    [ScreenContainer], one per route, [None] where the callback returns
    [null]. *)
Record SplitLayout : Type := {
  provided : Navigation;
  body_style : JSValue;
  main_style : JSValue;
  main_children : ScreenElement;
  detail_style : JSValue;
  container_style : JSValue;
  pages : list (option ResourceSavingScene);
}.

(** The two stack renderers. *)
Variant Backend : Type :=
| NativeStackView
| StackView.

Variant PropValue : Type :=
| PString (s : string)
| PState (state : NavigationState)
| PNavigation (navigation : Navigation)
| PDescriptors (descriptors : gmap string Descriptor).

(** What the component returns: the split layout, or one backend element
    with its props in the order they are written. *)
Variant Tree : Type :=
| Split (layout : SplitLayout)
| Stack (backend : Backend) (props : list (string * PropValue)).

(** The names of the props passed to a backend. *)
Definition propNames (tree : Tree) : list string :=
  match tree with
  | Split _ => []
  | Stack _ props => map fst props
  end.

(** ** The component function *)

(** [Platform.OS] and [screensEnabled()]. *)
Record Host : Type := {
  OS : string;
  screensEnabled : bool;
}.

(** [descriptors[k].render()] *)
Definition renderDescriptor (descriptors : gmap string Descriptor) (k : string)
    : Outcome ScreenElement :=
  match descriptors !! k with
  | Some descriptor => Returned (render descriptor)
  | None => Threw (TypeError "render")
  end.

(** The callback of [state.routes.map((route, index) => ...)]. *)
Definition detailScene (state : NavigationState)
    (descriptors : gmap string Descriptor) (loaded : list nat)
    (mainRoute : Route) (i : nat) (route : Route)
    : Outcome (option ResourceSavingScene) :=
  let isFocused := Nat.eqb (index state) i in
  if String.eqb (key route) (key mainRoute) then Returned None
  else if negb (includes loaded i) && negb isFocused then Returned None
  else
    children ← renderDescriptor descriptors (key route);
    Returned (Some {| scene_key := key route;
                      scene_style := absoluteFill;
                      isVisible := isFocused;
                      scene_children := children |}).

(** [{ ...state, type: 'stack' }] *)
Definition stackState (state : NavigationState) : NavigationState :=
  {| routes := routes state; index := index state; type := "stack" |}.

(** The body of [SurfSplitNavigator] after its hooks: [dimensions] is what
    [useWindowDimensions()] returned, [state], [navigation] and
    [descriptors] what [useNavigationBuilder] returned, [loaded] the value
    of the [useState] cell. *)
Definition SurfSplitNavigator {R : SurfSplitRouter} (host : Host) (props : Props)
    (dimensions : Dimensions) (state : NavigationState)
    (navigation : Navigation) (descriptors : gmap string Descriptor)
    (loaded : list nat) : Outcome Tree :=
  let isSplitted := getIsSplitted dimensions (mainWidth props) in
  if isSplitted then
    match find (fun route => String.eqb (name route) MAIN_SCREEN_NAME)
               (routes state) with
    | None =>
        Threw (Error ("You should provide " ++ MAIN_SCREEN_NAME ++ " screen!"))
    | Some mainRoute =>
        main ← renderDescriptor descriptors (key mainRoute);
        scenes ← array_map (detailScene state descriptors loaded mainRoute)
                           0 (routes state);
        Returned (Split {| provided := navigation;
                           body_style := get (splitStyles props) "body";
                           main_style := get (splitStyles props) "main";
                           main_children := main;
                           detail_style := get (splitStyles props) "detail";
                           container_style := get styles "pages";
                           pages := scenes |})
    end
  else if negb (String.eqb (OS host) "web") && screensEnabled host then
    Returned (Stack NativeStackView
                [ ("state", PState (stackState state));
                  ("navigation", PNavigation navigation);
                  ("descriptors", PDescriptors descriptors) ])
  else
    Returned (Stack StackView
                [ ("headerMode", PString "none");
                  ("state", PState (stackState state));
                  ("navigation", PNavigation navigation);
                  ("descriptors", PDescriptors descriptors) ]).

(** ** The component instance and its effects *)

(** The cells of one mounted navigator: the value of the dimension hook,
    the state held by the navigation builder, the [loaded] cell, the
    dependencies each effect saw when the last render was committed
    ([None] before the first), and the log of [navigation.dispatch] calls,
    oldest first. *)
Record Instance : Type := {
  window : Dimensions;
  store : NavigationState;
  loaded : list nat;
  deps_isSplitted : option bool;
  deps_state : option NavigationState;
  dispatched : list SurfSplitAction;
}.

(** The argument of [navigation.dispatch] in the first effect. *)
Definition syncAction {R : SurfSplitRouter} (props : Props) (isSplitted : bool)
    : SurfSplitAction :=
  setSplitted isSplitted
    (if isSplitted then initialRouteName props else MAIN_SCREEN_NAME).

(** The body of the second effect: the new value of [loaded]. *)
Definition trackLoaded (loaded : list nat) (state : NavigationState)
    : list nat :=
  if negb (includes loaded (index state)) then loaded ++ [index state]
  else loaded.

(** The effects of one committed render, in source order. An effect runs
    when its dependency differs from the one of the previous commit. The
    [state] dependency is compared by contents: the builder hands out a new
    object when the state changes, and the second effect does nothing when
    it runs again on a state it has seen. *)
Definition effects {R : SurfSplitRouter} (props : Props) (w : Instance)
    : Instance :=
  let isSplitted := getIsSplitted (window w) (mainWidth props) in
  let state := store w in
  let sync := negb (bool_decide (deps_isSplitted w = Some isSplitted)) in
  let track := negb (bool_decide (deps_state w = Some state)) in
  {| window := window w;
     store :=
       if sync then getStateForAction state (syncAction props isSplitted)
       else state;
     loaded := if track then trackLoaded (loaded w) state else loaded w;
     deps_isSplitted := Some isSplitted;
     deps_state := Some state;
     dispatched :=
       if sync then dispatched w ++ [syncAction props isSplitted]
       else dispatched w |}.

(** What [useNavigationBuilder] returns besides the state. *)
Record Builder : Type := {
  navigation : Navigation;
  descriptorsOf : NavigationState -> gmap string Descriptor;
}.

(** A navigator is mounted, or a render threw and React took it down. *)
Variant Lifecycle : Type :=
| Mounted (w : Instance)
| Crashed (e : Exception) (w : Instance).

Definition instance_of (l : Lifecycle) : Instance :=
  match l with
  | Mounted w => w
  | Crashed _ w => w
  end.

(** One render; its effects run only if it returns. *)
Definition commit {R : SurfSplitRouter} (host : Host) (builder : Builder)
    (props : Props) (w : Instance) : Lifecycle :=
  match SurfSplitNavigator host props (window w) (store w)
          (navigation builder) (descriptorsOf builder (store w)) (loaded w) with
  | Returned _ => Mounted (effects props w)
  | Threw e => Crashed e w
  end.

(** A commit schedules another render when it changed a state cell. *)
Definition scheduled (before after : Instance) : bool :=
  negb (bool_decide (store after = store before))
  || negb (bool_decide (loaded after = loaded before)).

(** Render, and render again while a commit changes a cell. *)
Fixpoint rerender {R : SurfSplitRouter} (fuel : nat) (host : Host)
    (builder : Builder) (props : Props) (w : Instance) : Lifecycle :=
  match commit host builder props w with
  | Crashed e w' => Crashed e w'
  | Mounted w' =>
      if scheduled w w' then
        match fuel with
        | 0 => Mounted w'
        | S fuel' => rerender fuel' host builder props w'
        end
      else Mounted w'
  end.

(** An update: the commit that follows an event, and the re-renders it
    causes; two further renders always suffice. *)
Definition update {R : SurfSplitRouter} := rerender 2.

(** What happens to a mounted navigator: the window changes, or the store
    serves another state (a focus change, a push, ...). *)
Variant Event : Type :=
| Resize (dimensions : Dimensions)
| StoreChange (state : NavigationState).

Definition deliver (e : Event) (w : Instance) : Instance :=
  match e with
  | Resize dimensions =>
      {| window := dimensions; store := store w; loaded := loaded w;
         deps_isSplitted := deps_isSplitted w; deps_state := deps_state w;
         dispatched := dispatched w |}
  | StoreChange state =>
      {| window := window w; store := state; loaded := loaded w;
         deps_isSplitted := deps_isSplitted w; deps_state := deps_state w;
         dispatched := dispatched w |}
  end.

Definition step {R : SurfSplitRouter} (host : Host) (builder : Builder)
    (props : Props) (l : Lifecycle) (e : Event) : Lifecycle :=
  match l with
  | Mounted w => update host builder props (deliver e w)
  | Crashed _ _ => l
  end.

(** Mounting: [loaded] starts as [[]], no effect has run. *)
Definition mount {R : SurfSplitRouter} (host : Host) (builder : Builder)
    (props : Props) (dimensions : Dimensions) (state : NavigationState)
    : Lifecycle :=
  update host builder props
    {| window := dimensions; store := state; loaded := [];
       deps_isSplitted := None; deps_state := None; dispatched := [] |}.

(** A lifetime: mount, then the events in order. *)
Definition run {R : SurfSplitRouter} (host : Host) (builder : Builder)
    (props : Props) (dimensions : Dimensions) (state : NavigationState)
    (events : list Event) : Lifecycle :=
  fold_left (step host builder props) events
    (mount host builder props dimensions state).

(** The booleans at which a sequence of [isSplitted] values changes,
    starting from [previous]. *)
Fixpoint edges (previous : bool) (values : list bool) : list bool :=
  match values with
  | [] => []
  | b :: rest =>
      if Bool.eqb b previous then edges b rest else b :: edges b rest
  end.

(** ** Predicates on instances *)

(** [isSplitted] as a navigator with these props computes it. *)
Definition isSplittedOf (props : Props) (dimensions : Dimensions) : bool :=
  getIsSplitted dimensions (mainWidth props).

(** Nothing is left for the effects to do. *)
Definition quiet (props : Props) (w : Instance) : Prop :=
  deps_isSplitted w = Some (isSplittedOf props (window w))
  /\ deps_state w = Some (store w).

(** The state the second effect last ran on has its focused index in
    [loaded]. *)
Definition tracked (w : Instance) : Prop :=
  forall state, deps_state w = Some state -> index state ∈ loaded w.

(** The first effect's dependency agrees with the window [d], and [log] is
    what has been dispatched. *)
Definition logged (props : Props) (d : Dimensions)
    (log : list SurfSplitAction) (w : Instance) : Prop :=
  window w = d
  /\ deps_isSplitted w = Some (isSplittedOf props d)
  /\ dispatched w = log.

(** The state is in the mode the first effect last synchronized. *)
Definition typed (w : Instance) : Prop :=
  forall b, deps_isSplitted w = Some b -> type (store w) = modeTag b.

(** The windows the resizes of a lifetime deliver, in order. *)
Fixpoint resizesOf (events : list Event) : list Dimensions :=
  match events with
  | [] => []
  | Resize dimensions :: rest => dimensions :: resizesOf rest
  | StoreChange _ :: rest => resizesOf rest
  end.

(** Every store change of the lifetime that continues [l] with [events]
    serves a state with the mode tag of the state it replaces: the store
    changes [type] in answer to [setSplitted] only. *)
Fixpoint keepsMode {R : SurfSplitRouter} (host : Host) (builder : Builder)
    (props : Props) (l : Lifecycle) (events : list Event) : bool :=
  match events with
  | [] => true
  | e :: rest =>
      match e with
      | Resize _ => true
      | StoreChange state =>
          String.eqb (type state) (type (store (instance_of l)))
      end
      && keepsMode host builder props (step host builder props l e) rest
  end.

(** ** Concrete inputs *)

(** Modelled from the spec: the least store that honours [SetMode]. It
    records the mode in [type] and leaves the routes and the focus alone
    (so repeating a message is a no-op); the reserved name is [main], as in
    the spec's scenarios. The repository's router, [SurfSplitRouter.js], is
    not among the sources. *)
Definition tagRouter : SurfSplitRouter :=
  {| MAIN_SCREEN_NAME := "main";
     getStateForAction state action :=
       match action with
       | setSplitted isSplitted _ =>
           {| routes := routes state; index := index state;
              type := modeTag isSplitted |}
       end |}.

(** A window of the given width. *)
Definition windowOf (w : number) : Dimensions :=
  {| width := w; height := 800; scale := 2; fontScale := 1 |}.

Definition phone : Host := {| OS := "ios"; screensEnabled := true |}.
Definition browser : Host := {| OS := "web"; screensEnabled := true |}.

Definition mainRoute : Route := {| key := "main-1"; name := "main" |}.
Definition detailA : Route := {| key := "detailA-2"; name := "detailA" |}.
Definition detailB : Route := {| key := "detailB-3"; name := "detailB" |}.

(** A builder that has a descriptor for every route of the state. *)
Definition describeAll : Builder :=
  {| navigation := helpers "split";
     descriptorsOf state :=
       list_to_map
         (map (fun route => (key route, {| render := screen (name route) |}))
              (routes state)) |}.

Definition props300 : Props :=
  {| initialRouteName := "detailA"; mainWidth := 300; screenOptions := None |}.

(** Scenario 4 of the spec: routes [main, detailA, detailB], [detailB]
    visited before, focus now on [detailA]. *)
Definition scenario4 : NavigationState :=
  {| routes := [mainRoute; detailA; detailB]; index := 1; type := "split" |}.

(** The routes [main, detailA, detailB] as a stack focused on [main]. *)
Definition stackOfThree : NavigationState :=
  {| routes := [mainRoute; detailA; detailB]; index := 0; type := "stack" |}.

(** ** The fallback hook over a lifetime *)

(** Identity of number representations (not [===]): used only to tell
    whether a state cell holds the value a closure captured. *)
#[global] Instance number_eq_dec : EqDecision number.
Proof. unfold number. solve_decision. Defined.

#[global] Instance Dimensions_eq_dec : EqDecision Dimensions.
Proof. solve_decision. Defined.

Module Watcher.

(** The [Dimensions] module's current window (what [Dimensions.get('window')]
    returns) and the mounted hook. *)
Record World : Type := {
  current : Dimensions;
  hook : Fallback.Hook;
}.

(** The window changes and the module emits ['change'] with the new value;
    or React flushes: it re-renders, and when [dimensions] is not the value
    the registered effect depended on, the cleanup removes the old listener
    and the effect runs again ([useEffect(..., [dimensions])]).
    [setDimensions] is only ever called with a value that differs in a
    field, so comparing the dependency by contents decides the same. *)
Variant Event : Type :=
| Change (window : Dimensions)
| Flush.

Definition flush (h : Fallback.Hook) (now : Dimensions) : Fallback.Hook :=
  if decide (Fallback.listener h = Some (Fallback.dimensions h)) then h
  else Fallback.effect h now.

Definition step (w : World) (e : Event) : World :=
  match e with
  | Change window =>
      {| current := window; hook := Fallback.notify (hook w) window |}
  | Flush => {| current := current w; hook := flush (hook w) (current w) |}
  end.

(** The hook is rendered for the first time while the window is [initial];
    its effect has not run yet. *)
Definition mounted (initial : Dimensions) : World :=
  {| current := initial; hook := Fallback.render initial |}.

Definition run (initial : Dimensions) (events : list Event) : World :=
  fold_left step events (mounted initial).

(** The registered listener closed over the present state, and the state
    agrees with the window. *)
Definition settled (w : World) : Prop :=
  Fallback.listener (hook w) = Some (Fallback.dimensions (hook w))
  /\ Fallback.same_fields (Fallback.dimensions (hook w)) (current w).

End Watcher.

(** Whenever the listener is up to date, the state agrees with the window. *)
Definition in_step (w : Watcher.World) : Prop :=
  Fallback.listener (Watcher.hook w)
  = Some (Fallback.dimensions (Watcher.hook w)) ->
  Fallback.same_fields (Fallback.dimensions (Watcher.hook w))
    (Watcher.current w).

(** ** The dispatch log *)

(** The boolean a dispatched action carries. *)
Definition actionFlag (action : SurfSplitAction) : bool :=
  match action with
  | setSplitted isSplitted _ => isSplitted
  end.

(** No two neighbours are equal. *)
Fixpoint alternates (flags : list bool) : bool :=
  match flags with
  | a :: (b :: _) as rest => negb (Bool.eqb a b) && alternates rest
  | _ => true
  end.

(** The events that are resizes to a window of split width. *)
Definition widens (props : Props) (e : Event) : bool :=
  match e with
  | Resize dimensions => getIsSplitted dimensions (mainWidth props)
  | StoreChange _ => false
  end.

(** ** More concrete inputs *)

Definition sceneA : ResourceSavingScene :=
  {| scene_key := "detailA-2"; scene_style := absoluteFill;
     isVisible := true; scene_children := screen "detailA" |}.

Definition sceneB : ResourceSavingScene :=
  {| scene_key := "detailB-3"; scene_style := absoluteFill;
     isVisible := false; scene_children := screen "detailB" |}.

(** The split layout of [scenario4] with [loaded = [2]] and default styles. *)
Definition scenario4Layout : SplitLayout :=
  {| provided := helpers "split";
     body_style := get styles "body";
     main_style := get styles "main";
     main_children := screen "main";
     detail_style := get styles "detail";
     container_style := get styles "pages";
     pages := [None; Some sceneA; Some sceneB] |}.

(** Descriptors for [main] and [detailA] only. *)
Definition twoDescriptors : gmap string Descriptor :=
  <["main-1" := {| render := screen "main" |}]>
    (<["detailA-2" := {| render := screen "detailA" |}]> ∅).

(** Props whose [splitStyles] fill the [body] slot only. *)
Definition propsBodyOnly : Props :=
  {| initialRouteName := "detailA"; mainWidth := 300;
     screenOptions :=
       Some (<["splitStyles" :=
                 VObject [("body", VObject [("padding", VNumber 0)])]]> ∅) |}.

(** The split layout of [scenario4] under [propsBodyOnly]. *)
Definition bodyOnlyLayout : SplitLayout :=
  {| provided := helpers "split";
     body_style := VObject [("padding", VNumber 0)];
     main_style := VUndefined;
     main_children := screen "main";
     detail_style := VUndefined;
     container_style := get styles "pages";
     pages := [None; Some sceneA; Some sceneB] |}.

(** A store change within stack mode: [main] with [detailA] pushed. *)
Definition stackOfTwo : NavigationState :=
  {| routes := [mainRoute; detailA]; index := 1; type := "stack" |}.

(** * Part II: properties *)

(** ** Numbers *)

Lemma strict_ne_false (a b : number) : strict_ne a b = false <-> (a == b)%Q.
Proof.
  unfold strict_ne, strict_eq. rewrite negb_false_iff. apply Qeq_bool_iff.
Qed.

Lemma gt_spec (a b : number) : gt a b = true <-> (b < a)%Q.
Proof.
  unfold gt. rewrite negb_true_iff. split.
  - intros H. apply Qnot_le_lt. intros Hle.
    apply Qle_bool_iff in Hle. congruence.
  - intros H. destruct (Qle_bool a b) eqn:E; [|reflexivity].
    apply Qle_bool_iff in E. exfalso. exact (Qlt_not_le _ _ H E).
Qed.

Lemma gt_compat (a a' b : number) : (a == a')%Q -> gt a b = gt a' b.
Proof.
  intros Heq.
  destruct (gt a b) eqn:E1, (gt a' b) eqn:E2; try reflexivity.
  - apply gt_spec in E1. rewrite Heq in E1. apply gt_spec in E1. congruence.
  - apply gt_spec in E2. rewrite <- Heq in E2. apply gt_spec in E2. congruence.
Qed.

Lemma includes_spec (array : list nat) (x : nat) :
  includes array x = true <-> x ∈ array.
Proof.
  unfold includes. rewrite existsb_exists, list_elem_of_In. split.
  - intros (y & Hy & Heq). apply Nat.eqb_eq in Heq. now subst.
  - intros Hx. exists x. split; [assumption | apply Nat.eqb_refl].
Qed.

(** ** The split detector *)

(** C6. [getIsSplitted] is the strict comparison of the window width with
    [mainWidth]: it is true exactly when the width exceeds the threshold,
    false on the boundary, and reads nothing of the dimensions but the
    width (no state, no hysteresis). *)
Theorem getIsSplitted_threshold (dimensions : Dimensions) (mainWidth : number) :
  (getIsSplitted dimensions mainWidth = true
   <-> (mainWidth < width dimensions)%Q)
  /\ ((width dimensions == mainWidth)%Q
      -> getIsSplitted dimensions mainWidth = false)
  /\ (forall other : Dimensions,
        (width other == width dimensions)%Q
        -> getIsSplitted other mainWidth = getIsSplitted dimensions mainWidth).
Proof.
  unfold getIsSplitted. split; [apply gt_spec|]. split.
  - intros Heq. destruct (gt (width dimensions) mainWidth) eqn:E; [|reflexivity].
    apply gt_spec in E. rewrite Heq in E. exfalso. exact (Qlt_irrefl _ E).
  - intros other Heq. now apply gt_compat.
Qed.

Lemma getIsSplitted_threshold_witness :
  getIsSplitted (windowOf 400) 300 = true
  /\ getIsSplitted (windowOf 300) 300 = false
  /\ getIsSplitted (windowOf 200) 300 = false.
Proof.
  split; [|split].
  - apply (proj1 (getIsSplitted_threshold (windowOf 400) 300)). reflexivity.
  - apply (proj1 (proj2 (getIsSplitted_threshold (windowOf 300) 300))).
    reflexivity.
  - reflexivity.
Defined.

(** ** The fallback dimension hook *)

Lemma differs_false (a b : Dimensions) :
  Fallback.differs a b = false <-> Fallback.same_fields a b.
Proof.
  unfold Fallback.differs, Fallback.same_fields.
  rewrite !orb_false_iff, !strict_ne_false. tauto.
Qed.

Lemma differs_true (a b : Dimensions) :
  Fallback.differs a b = true <-> ~ Fallback.same_fields a b.
Proof.
  rewrite <- differs_false. destruct (Fallback.differs a b); split; congruence.
Qed.

Lemma same_fields_refl (a : Dimensions) : Fallback.same_fields a a.
Proof. repeat split; reflexivity. Qed.

(** C9. The fallback hook's handler calls [setDimensions(window)] exactly
    when one of [width], [height], [scale], [fontScale] differs from the
    value it closed over, and not at all when the four agree; a
    notification reaches the state through the registered handler only in
    that case; and the effect, whenever it runs, registers the handler and
    leaves the state equal, field by field, to the dimensions it re-reads,
    so a change between the render's read and the subscription (when
    nothing listened) is picked up. *)
Theorem fallback_watcher (h : Fallback.Hook) (current window : Dimensions) :
  (Fallback.handleChange (Fallback.dimensions h) window = Some window
   <-> ~ Fallback.same_fields (Fallback.dimensions h) window)
  /\ (Fallback.handleChange (Fallback.dimensions h) window = None
      <-> Fallback.same_fields (Fallback.dimensions h) window)
  /\ (Fallback.listener h = Some (Fallback.dimensions h) ->
      Fallback.dimensions (Fallback.notify h window)
      = if Fallback.differs (Fallback.dimensions h) window then window
        else Fallback.dimensions h)
  /\ Fallback.listener (Fallback.effect h current)
     = Some (Fallback.dimensions h)
  /\ Fallback.same_fields
       (Fallback.dimensions (Fallback.effect h current)) current
  /\ (~ Fallback.same_fields (Fallback.dimensions h) current ->
      Fallback.dimensions (Fallback.effect h current) = current)
  /\ Fallback.notify (Fallback.render current) window = Fallback.render current.
Proof.
  unfold Fallback.handleChange, Fallback.notify, Fallback.effect,
    Fallback.handleChange.
  refine (conj (conj _ _) (conj (conj _ _) (conj _ (conj _ (conj _ (conj _ _)))))).
  - intros H. apply differs_true.
    destruct (Fallback.differs _ _); [reflexivity | discriminate].
  - intros H. apply differs_true in H. now rewrite H.
  - intros H. apply differs_false.
    destruct (Fallback.differs _ _); [discriminate | reflexivity].
  - intros H. apply differs_false in H. now rewrite H.
  - intros ->. now destruct (Fallback.differs _ _).
  - now destruct (Fallback.differs _ _).
  - destruct (Fallback.differs _ _) eqn:E; simpl.
    + apply same_fields_refl.
    + now apply differs_false.
  - intros H. apply differs_true in H. now rewrite H.
  - reflexivity.
Qed.

Lemma fallback_watcher_witness :
  Fallback.dimensions
    (Fallback.effect (Fallback.render (windowOf 200)) (windowOf 400))
  = windowOf 400.
Proof.
  apply (fallback_watcher (Fallback.render (windowOf 200))
           (windowOf 400) (windowOf 400)).
  intros H. destruct H as [H _]. vm_compute in H. discriminate.
Defined.

(** ** Options handed to the navigation builder *)

(** C10. Whatever [screenOptions] the caller supplies, the options passed
    to [useNavigationBuilder] have [headerShown] set to [false]; the
    caller's [splitStyles] is not passed on, and every other option is
    passed on as given. *)
Theorem builder_headerShown_false (props : Props) (dimensions : Dimensions) :
  builder_screenOptions (builderOptions props dimensions) !! "headerShown"
  = Some (VBool false)
  /\ builder_screenOptions (builderOptions props dimensions) !! "splitStyles"
     = None
  /\ forall option : string,
       option <> "headerShown" -> option <> "splitStyles" ->
       builder_screenOptions (builderOptions props dimensions) !! option
       = screenOptionsOrEmpty props !! option.
Proof.
  unfold builderOptions, restScreenOptions; simpl.
  split; [apply lookup_insert_eq|]. split.
  - rewrite lookup_insert_ne by discriminate. apply lookup_delete_eq.
  - intros option Hh Hs.
    rewrite lookup_insert_ne by congruence.
    apply lookup_delete_ne. congruence.
Qed.

Lemma builder_headerShown_false_witness :
  let props :=
    {| initialRouteName := "detailA"; mainWidth := 300;
       screenOptions :=
         Some (<["headerShown" := VBool true]>
                 (<["gestureEnabled" := VBool true]> ∅)) |} in
  builder_screenOptions (builderOptions props (windowOf 400)) !! "headerShown"
  = Some (VBool false)
  /\ builder_screenOptions (builderOptions props (windowOf 400))
       !! "gestureEnabled" = Some (VBool true).
Proof.
  intros props. split.
  - apply (builder_headerShown_false props (windowOf 400)).
  - rewrite (proj2 (proj2 (builder_headerShown_false props (windowOf 400))))
      by discriminate.
    reflexivity.
Defined.

(** ** The renderer *)

Lemma find_None_Forall {A : Type} (f : A -> bool) (l : list A) :
  find f l = None <-> Forall (fun x => f x = false) l.
Proof.
  induction l as [|x l IH]; simpl.
  - split; [constructor | reflexivity].
  - destruct (f x) eqn:E.
    + split; [discriminate|]. intros HF. inversion HF; subst. congruence.
    + rewrite IH. split.
      * intros HF. now constructor.
      * intros HF. now inversion HF.
Qed.

Lemma array_map_Returned {A B : Type} (f : nat -> A -> Outcome B)
    (array : list A) :
  forall (i : nat) (ys : list B),
    array_map f i array = Returned ys ->
    length ys = length array
    /\ forall (j : nat) (x : A), array !! j = Some x ->
         exists y, ys !! j = Some y /\ f (i + j) x = Returned y.
Proof.
  induction array as [|x rest IH]; intros i ys; simpl.
  - intros [= <-]. split; [reflexivity|]. intros j x Hj. discriminate.
  - unfold mbind, Outcome_bind.
    destruct (f i x) as [y|e] eqn:Ey; [|discriminate].
    destruct (array_map f (S i) rest) as [ys'|e] eqn:Er; [|discriminate].
    intros [= <-]. destruct (IH _ _ Er) as [Hlen Hnth].
    split; [simpl; congruence|].
    intros [|j] x' Hj; simpl in Hj.
    + injection Hj as <-. exists y. rewrite Nat.add_0_r. now split.
    + destruct (Hnth j x' Hj) as (y' & Hy' & Hf).
      exists y'. split; [exact Hy'|].
      now replace (i + S j) with (S i + j) by lia.
Qed.

Lemma array_map_total {A B : Type} (f : nat -> A -> Outcome B)
    (array : list A) :
  forall i : nat,
    (forall (j : nat) (x : A), array !! j = Some x ->
       exists y, f (i + j) x = Returned y) ->
    exists ys, array_map f i array = Returned ys.
Proof.
  induction array as [|x rest IH]; intros i Hf; simpl.
  - now exists [].
  - unfold mbind, Outcome_bind.
    destruct (Hf 0 x eq_refl) as [y Hy]. rewrite Nat.add_0_r in Hy.
    rewrite Hy.
    destruct (IH (S i)) as [ys Hys].
    + intros j x' Hj. destruct (Hf (S j) x' Hj) as [y' Hy'].
      exists y'. now replace (S i + j) with (i + S j) by lia.
    + rewrite Hys. now eexists.
Qed.

(** C2. When the split branch is taken and no route of the state is named
    [MAIN_SCREEN_NAME], the component throws
    [Error("You should provide <MAIN_SCREEN_NAME> screen!")] whatever the
    descriptors and the loaded set are: no tree is returned (in particular
    no stack element), no descriptor is rendered first, and the commit
    stops there with no effect run. *)
Theorem missing_main_is_fatal {R : SurfSplitRouter} (host : Host)
    (builder : Builder) (props : Props) (w : Instance)
    (navigation : Navigation) (descriptors : gmap string Descriptor)
    (loaded : list nat) :
  getIsSplitted (window w) (mainWidth props) = true ->
  Forall (fun route => name route <> MAIN_SCREEN_NAME) (routes (store w)) ->
  SurfSplitNavigator host props (window w) (store w) navigation descriptors
    loaded
  = Threw (Error ("You should provide " ++ MAIN_SCREEN_NAME ++ " screen!"))
  /\ commit host builder props w
     = Crashed
         (Error ("You should provide " ++ MAIN_SCREEN_NAME ++ " screen!")) w.
Proof.
  intros Hsplit Hnone.
  assert (Hfind : find (fun route => String.eqb (name route) MAIN_SCREEN_NAME)
                    (routes (store w)) = None).
  { apply find_None_Forall. eapply Forall_impl; [exact Hnone|].
    intros route Hne. now apply String.eqb_neq. }
  unfold commit, SurfSplitNavigator. rewrite Hsplit, Hfind. now split.
Qed.

Lemma missing_main_is_fatal_witness :
  let w := {| window := windowOf 400;
              store := {| routes := [detailA; detailB]; index := 0;
                          type := "split" |};
              loaded := []; deps_isSplitted := None; deps_state := None;
              dispatched := [] |} in
  SurfSplitNavigator (R := tagRouter) phone props300 (window w) (store w)
    (helpers "split") ∅ []
  = Threw (Error "You should provide main screen!")
  /\ commit (R := tagRouter) phone describeAll props300 w
     = Crashed (Error "You should provide main screen!") w.
Proof.
  intros w.
  apply (missing_main_is_fatal (R := tagRouter) phone describeAll props300 w
           (helpers "split") ∅ []).
  - reflexivity.
  - repeat constructor; discriminate.
Defined.

(** The split branch returns a layout when the main route is present and
    every route has a descriptor. *)
Lemma detailScene_total (state : NavigationState)
    (descriptors : gmap string Descriptor) (loaded : list nat)
    (main : Route) (i : nat) (route : Route) :
  is_Some (descriptors !! key route) ->
  exists scene,
    detailScene state descriptors loaded main i route = Returned scene.
Proof.
  intros [descriptor Hd]. unfold detailScene, renderDescriptor.
  destruct (String.eqb (key route) (key main)); [now eexists|].
  destruct (negb (includes loaded i) && negb (Nat.eqb (index state) i));
    [now eexists|].
  rewrite Hd. simpl. now eexists.
Qed.

(** C3. In a split render (main route [main] found, a descriptor for every
    route), the component returns the split layout, whose detail container
    has one child position per route, and for every route at position [i]
    whose key is not the main route's: the child is [null] when [i] is
    neither the focused index nor in [loaded]; otherwise it is a
    [ResourceSavingScene] keyed by the route, holding the route's rendered
    descriptor, with [isVisible] true exactly when [i] is the focused
    index (so a loaded, unfocused route is present with [isVisible]
    false). *)
Theorem split_detail_policy {R : SurfSplitRouter} (host : Host) (props : Props)
    (dimensions : Dimensions) (state : NavigationState)
    (navigation : Navigation) (descriptors : gmap string Descriptor)
    (loaded : list nat) (main : Route) :
  getIsSplitted dimensions (mainWidth props) = true ->
  find (fun route => String.eqb (name route) MAIN_SCREEN_NAME) (routes state)
  = Some main ->
  (forall route, route ∈ routes state -> is_Some (descriptors !! key route)) ->
  exists layout : SplitLayout,
    SurfSplitNavigator host props dimensions state navigation descriptors
      loaded = Returned (Split layout)
    /\ length (pages layout) = length (routes state)
    /\ forall (i : nat) (route : Route),
         routes state !! i = Some route -> key route <> key main ->
         (i <> index state -> i ∉ loaded -> pages layout !! i = Some None)
         /\ (i = index state \/ i ∈ loaded ->
             exists descriptor,
               descriptors !! key route = Some descriptor
               /\ pages layout !! i
                  = Some (Some {| scene_key := key route;
                                  scene_style := absoluteFill;
                                  isVisible := bool_decide (i = index state);
                                  scene_children := render descriptor |})).
Proof.
  intros Hsplit Hfind Hdesc.
  unfold SurfSplitNavigator. rewrite Hsplit, Hfind.
  assert (Hmain : main ∈ routes state).
  { apply list_elem_of_In. eapply find_some. exact Hfind. }
  destruct (Hdesc main Hmain) as [dmain Hdmain].
  unfold renderDescriptor at 1. rewrite Hdmain. simpl.
  destruct (array_map_total (detailScene state descriptors loaded main)
              (routes state) 0) as [scenes Hscenes].
  { intros j x Hj. apply detailScene_total, Hdesc.
    eapply list_elem_of_lookup_2. exact Hj. }
  rewrite Hscenes. simpl. eexists. split; [reflexivity|]. simpl.
  destruct (array_map_Returned _ _ _ _ Hscenes) as [Hlen Hnth].
  split; [exact Hlen|].
  intros i route Hi Hkey.
  destruct (Hnth i route Hi) as (scene & Hscene & Hcall). simpl in Hcall.
  rewrite Hscene. unfold detailScene in Hcall.
  apply String.eqb_neq in Hkey. rewrite Hkey in Hcall.
  split.
  - intros Hfocus Hloaded.
    assert (Hinc : includes loaded i = false).
    { destruct (includes loaded i) eqn:E; [|reflexivity].
      apply includes_spec in E. contradiction. }
    assert (Hidx : Nat.eqb (index state) i = false).
    { apply Nat.eqb_neq. congruence. }
    rewrite Hinc, Hidx in Hcall. simpl in Hcall. congruence.
  - intros Hshown.
    assert (Hgate : negb (includes loaded i) && negb (Nat.eqb (index state) i)
                    = false).
    { destruct Hshown as [-> | Hin].
      - rewrite Nat.eqb_refl. apply andb_false_r.
      - apply includes_spec in Hin. now rewrite Hin. }
    rewrite Hgate in Hcall.
    assert (Hroute : route ∈ routes state).
    { eapply list_elem_of_lookup_2. exact Hi. }
    destruct (Hdesc route Hroute) as [descriptor Hd].
    unfold renderDescriptor in Hcall. rewrite Hd in Hcall. simpl in Hcall.
    exists descriptor. split; [exact Hd|].
    injection Hcall as <-. do 3 f_equal.
    destruct (Nat.eqb_spec (index state) i) as [Heq | Hne].
    + symmetry. apply bool_decide_eq_true. congruence.
    + symmetry. apply bool_decide_eq_false. congruence.
Qed.

Lemma split_detail_policy_witness :
  exists layout : SplitLayout,
    SurfSplitNavigator (R := tagRouter) phone props300 (windowOf 400)
      scenario4 (helpers "split") (descriptorsOf describeAll scenario4) [2]
    = Returned (Split layout)
    /\ pages layout !! 1
       = Some (Some {| scene_key := "detailA-2"; scene_style := absoluteFill;
                       isVisible := true;
                       scene_children := screen "detailA" |})
    /\ pages layout !! 2
       = Some (Some {| scene_key := "detailB-3"; scene_style := absoluteFill;
                       isVisible := false;
                       scene_children := screen "detailB" |}).
Proof.
  destruct (split_detail_policy (R := tagRouter) phone props300 (windowOf 400)
              scenario4 (helpers "split") (descriptorsOf describeAll scenario4)
              [2] mainRoute) as (layout & Hrender & _ & Hpolicy).
  - reflexivity.
  - reflexivity.
  - intros route Hin. apply list_elem_of_In in Hin. simpl in Hin.
    destruct Hin as [<- | [<- | [<- | []]]]; vm_compute; eauto.
  - exists layout. split; [exact Hrender|]. split.
    + destruct (Hpolicy 1 detailA eq_refl) as [_ Hshown]; [discriminate|].
      destruct Hshown as (descriptor & Hd & ->); [now left|].
      vm_compute in Hd. now injection Hd as <-.
    + destruct (Hpolicy 2 detailB eq_refl) as [_ Hshown]; [discriminate|].
      destruct Hshown as (descriptor & Hd & ->).
      { right. apply list_elem_of_In. now left. }
      vm_compute in Hd. now injection Hd as <-.
Defined.

(** C8 (as the code has it). In a stack render the state is projected to
    the same routes and index with [type] set to ["stack"], and one backend
    is chosen: [NativeStackView] when [Platform.OS] is not ["web"] and
    [screensEnabled()] holds, [StackView] otherwise. The chosen backend
    receives three props, [state] (the projection), [navigation] (the
    helpers object) and [descriptors]; [StackView] receives
    [headerMode="none"] besides. *)
Theorem stack_render_delegates {R : SurfSplitRouter} (host : Host)
    (props : Props) (dimensions : Dimensions) (state : NavigationState)
    (navigation : Navigation) (descriptors : gmap string Descriptor)
    (loaded : list nat) :
  getIsSplitted dimensions (mainWidth props) = false ->
  let native := negb (String.eqb (OS host) "web") && screensEnabled host in
  let projected :=
    {| routes := routes state; index := index state; type := "stack" |} in
  SurfSplitNavigator host props dimensions state navigation descriptors loaded
  = Returned
      (Stack (if native then NativeStackView else StackView)
         ((if native then [] else [("headerMode", PString "none")])
          ++ [ ("state", PState projected);
               ("navigation", PNavigation navigation);
               ("descriptors", PDescriptors descriptors) ])).
Proof.
  intros Hstack native projected. unfold SurfSplitNavigator.
  rewrite Hstack. subst native projected.
  now destruct (negb (String.eqb (OS host) "web") && screensEnabled host).
Qed.

Lemma stack_render_delegates_witness :
  SurfSplitNavigator (R := tagRouter) phone props300 (windowOf 200) scenario4
    (helpers "split") ∅ []
  = Returned
      (Stack NativeStackView
         [ ("state", PState {| routes := [mainRoute; detailA; detailB];
                               index := 1; type := "stack" |});
           ("navigation", PNavigation (helpers "split"));
           ("descriptors", PDescriptors ∅) ]).
Proof.
  apply (stack_render_delegates (R := tagRouter) phone props300 (windowOf 200)
           scenario4 (helpers "split") ∅ []).
  reflexivity.
Defined.

(** C8, as stated, fails: the backend is not passed the projected state and
    the descriptor map only. On the web the fallback backend receives
    [headerMode] and [navigation] as well, and the native backend receives
    [navigation]. *)
Lemma stack_props_counterexample :
  (exists tree,
     SurfSplitNavigator (R := tagRouter) browser props300 (windowOf 200)
       scenario4 (helpers "split") ∅ [] = Returned tree
     /\ propNames tree = ["headerMode"; "state"; "navigation"; "descriptors"]
     /\ ~ (propNames tree ⊆ ["state"; "descriptors"]))
  /\ (exists tree,
        SurfSplitNavigator (R := tagRouter) phone props300 (windowOf 200)
          scenario4 (helpers "split") ∅ [] = Returned tree
        /\ propNames tree = ["state"; "navigation"; "descriptors"]
        /\ ~ (propNames tree ⊆ ["state"; "descriptors"])).
Proof.
  split; eexists; (split; [reflexivity|]); (split; [reflexivity|]);
    intros Hsub;
    assert (Hin : "navigation" ∈ ["state"; "descriptors"])
      by (apply Hsub; simpl; apply list_elem_of_In; simpl; tauto);
    apply list_elem_of_In in Hin; simpl in Hin;
    destruct Hin as [Hin | [Hin | []]]; discriminate.
Qed.

(** ** Commits and re-renders *)

Section Lifecycle.

Context {R : SurfSplitRouter}.
Variables (host : Host) (builder : Builder) (props : Props).

Lemma commit_cases (w : Instance) :
  commit host builder props w = Mounted (effects props w)
  \/ exists e, commit host builder props w = Crashed e w.
Proof.
  unfold commit. destruct (SurfSplitNavigator _ _ _ _ _ _ _); eauto.
Qed.

Lemma effects_quiet (w : Instance) : quiet props w -> effects props w = w.
Proof.
  intros [Hb Hs]. unfold isSplittedOf in Hb. destruct w; simpl in *.
  unfold effects; simpl. subst.
  now rewrite !bool_decide_eq_true_2 by reflexivity.
Qed.

Lemma scheduled_refl (w : Instance) : scheduled w w = false.
Proof.
  unfold scheduled. now rewrite !bool_decide_eq_true_2 by reflexivity.
Qed.

Lemma unscheduled_quiet (w : Instance) :
  scheduled w (effects props w) = false -> quiet props (effects props w).
Proof.
  unfold scheduled. rewrite orb_false_iff, !negb_false_iff.
  intros [Hstore _]. apply bool_decide_eq_true in Hstore.
  split; [reflexivity|]. simpl. simpl in Hstore. now rewrite Hstore.
Qed.

Lemma effects_store_synced (w : Instance) :
  deps_isSplitted w = Some (isSplittedOf props (window w)) ->
  store (effects props w) = store w.
Proof.
  intros Hb. unfold effects; simpl. unfold isSplittedOf in Hb.
  now rewrite (bool_decide_eq_true_2 _ Hb).
Qed.

Lemma second_commit_quiet (w : Instance) :
  quiet props (effects props (effects props w)).
Proof.
  split; [reflexivity|].
  now rewrite (effects_store_synced (effects props w)).
Qed.

(** A property that the effects preserve holds after any number of
    re-renders, crashed or not. *)
Lemma rerender_invariant (I : Instance -> Prop) :
  (forall w, I w -> I (effects props w)) ->
  forall (fuel : nat) (w : Instance),
    I w -> I (instance_of (rerender fuel host builder props w)).
Proof.
  intros Hstep fuel. induction fuel as [|fuel IH]; intros w Hw; simpl.
  - destruct (commit_cases w) as [-> | [e ->]]; [|exact Hw].
    destruct (scheduled _ _); simpl; now apply Hstep.
  - destruct (commit_cases w) as [-> | [e ->]]; [|exact Hw].
    destruct (scheduled _ _); simpl; [|now apply Hstep].
    apply IH. now apply Hstep.
Qed.

(** The same for a property that the first commit establishes. *)
Lemma rerender_establishes (P I : Instance -> Prop) :
  (forall w, P w -> I (effects props w)) ->
  (forall w, I w -> I (effects props w)) ->
  forall (fuel : nat) (w final : Instance),
    P w -> rerender fuel host builder props w = Mounted final -> I final.
Proof.
  intros Hfirst Hstep fuel w final Hw Hrun.
  destruct fuel as [|fuel]; simpl in Hrun;
    (destruct (commit_cases w) as [Hc | [e Hc]]; rewrite Hc in Hrun;
     [|discriminate]).
  - destruct (scheduled _ _); injection Hrun as <-; now apply Hfirst.
  - destruct (scheduled _ _).
    + pose proof (rerender_invariant I Hstep fuel (effects props w)
                    (Hfirst w Hw)) as Hinv.
      now rewrite Hrun in Hinv.
    + injection Hrun as <-. now apply Hfirst.
Qed.

(** X2. Enough fuel: after the first commit at most two more renders
    happen, so any fuel from two on gives the result of [update]. *)
Lemma rerender_settles (n : nat) (w : Instance) :
  rerender (2 + n) host builder props w = update host builder props w.
Proof.
  unfold update. simpl.
  destruct (commit_cases w) as [-> | [e ->]]; [|reflexivity].
  destruct (scheduled w _); [|reflexivity].
  destruct (commit_cases (effects props w)) as [-> | [e ->]]; [|reflexivity].
  destruct (scheduled (effects props w) _); [|reflexivity].
  set (w2 := effects props (effects props w)).
  assert (Hq : effects props w2 = w2)
    by apply effects_quiet, second_commit_quiet.
  destruct n; simpl;
    (destruct (commit_cases w2) as [-> | [e ->]]; [|reflexivity]);
    rewrite Hq, scheduled_refl; reflexivity.
Qed.

Lemma update_quiet (w final : Instance) :
  update host builder props w = Mounted final -> quiet props final.
Proof.
  unfold update. simpl. intros Hrun.
  destruct (commit_cases w) as [Hc | [e Hc]]; rewrite Hc in Hrun;
    [|discriminate].
  destruct (scheduled w _) eqn:E1;
    [|injection Hrun as <-; now apply unscheduled_quiet].
  destruct (commit_cases (effects props w)) as [Hc' | [e Hc']];
    rewrite Hc' in Hrun; [|discriminate].
  destruct (scheduled (effects props w) _);
    [|injection Hrun as <-; apply second_commit_quiet].
  set (w2 := effects props (effects props w)) in *.
  assert (Hq : effects props w2 = w2)
    by apply effects_quiet, second_commit_quiet.
  destruct (commit_cases w2) as [Hc2 | [e Hc2]]; rewrite Hc2 in Hrun;
    [|discriminate].
  rewrite Hq, scheduled_refl in Hrun. injection Hrun as <-.
  apply second_commit_quiet.
Qed.

Lemma step_crashed (events : list Event) (e : Exception) (w : Instance) :
  fold_left (step host builder props) events (Crashed e w) = Crashed e w.
Proof. induction events as [|ev events IH]; [reflexivity | exact IH]. Qed.

(** A property that the effects preserve and that does not read the cell
    an event writes holds throughout a run. *)
Lemma steps_invariant (I : Instance -> Prop) :
  (forall w, I w -> I (effects props w)) ->
  (forall e w, I w -> I (deliver e w)) ->
  forall (events : list Event) (l : Lifecycle),
    I (instance_of l) ->
    I (instance_of (fold_left (step host builder props) events l)).
Proof.
  intros Heff Hdel events.
  induction events as [|ev events IH]; intros l Hl; simpl; [exact Hl|].
  apply IH. destruct l as [w | e w]; simpl in *; [|exact Hl].
  unfold update. apply rerender_invariant; [exact Heff|]. now apply Hdel.
Qed.

Lemma mount_quiet (dimensions : Dimensions) (state : NavigationState)
    (final : Instance) :
  mount host builder props dimensions state = Mounted final ->
  quiet props final.
Proof. apply update_quiet. Qed.

Lemma step_quiet (l : Lifecycle) (e : Event) :
  forall final : Instance,
    step host builder props l e = Mounted final -> quiet props final.
Proof.
  intros final. destruct l as [w | x w]; simpl; [apply update_quiet|].
  discriminate.
Qed.

End Lifecycle.

(** ** The loaded set *)

Lemma trackLoaded_prefix (loaded : list nat) (state : NavigationState) :
  loaded `prefix_of` trackLoaded loaded state.
Proof.
  unfold trackLoaded. destruct (negb _); [now apply prefix_app_r | reflexivity].
Qed.

Lemma trackLoaded_focused (loaded : list nat) (state : NavigationState) :
  index state ∈ trackLoaded loaded state.
Proof.
  unfold trackLoaded. destruct (includes loaded (index state)) eqn:E; simpl.
  - now apply includes_spec.
  - apply elem_of_app. right. now apply list_elem_of_singleton.
Qed.

Lemma effects_loaded_prefix {R : SurfSplitRouter} (props : Props)
    (w : Instance) :
  loaded w `prefix_of` loaded (effects props w).
Proof.
  unfold effects; simpl. destruct (negb _); [|reflexivity].
  apply trackLoaded_prefix.
Qed.

Lemma prefix_subseteq (l1 l2 : list nat) : l1 `prefix_of` l2 -> l1 ⊆ l2.
Proof. intros [k ->] x Hx. apply elem_of_app. now left. Qed.

(** C4. The loaded set only grows: along any lifetime, whatever the events
    (focus changes, other store changes, resizes) and whether or not a
    render throws, the loaded set after a prefix of the events is contained
    in the loaded set after any continuation; the array is only ever
    appended to. *)
Theorem loaded_only_grows {R : SurfSplitRouter} (host : Host)
    (builder : Builder) (props : Props) (dimensions : Dimensions)
    (state : NavigationState) (events more : list Event) :
  loaded (instance_of (run host builder props dimensions state events))
  ⊆ loaded (instance_of
              (run host builder props dimensions state (events ++ more)))
  /\ loaded (instance_of (run host builder props dimensions state events))
     `prefix_of`
     loaded (instance_of
               (run host builder props dimensions state (events ++ more))).
Proof.
  assert (Hprefix :
    loaded (instance_of (run host builder props dimensions state events))
    `prefix_of`
    loaded (instance_of
              (run host builder props dimensions state (events ++ more)))).
  { unfold run. rewrite fold_left_app.
    set (here := fold_left _ events _).
    apply (steps_invariant host builder props
             (fun w => loaded (instance_of here) `prefix_of` loaded w)).
    - intros w Hw. etransitivity; [exact Hw|]. apply effects_loaded_prefix.
    - intros e w Hw. now destruct e.
    - reflexivity. }
  split; [now apply prefix_subseteq | exact Hprefix].
Qed.

(** ** The synchronization message *)

(** C7. Every [setSplitted] action the navigator dispatches carries a
    boolean and the route name that goes with it: [initialRouteName] when
    the boolean is true, [MAIN_SCREEN_NAME] when it is false; and the
    boolean of an action dispatched by a commit is [isSplitted] as computed
    in the render being committed. *)
Theorem setSplitted_payload {R : SurfSplitRouter} (host : Host)
    (builder : Builder) (props : Props) (dimensions : Dimensions)
    (state : NavigationState) (events : list Event) :
  Forall
    (fun action =>
       exists isSplitted : bool,
         action = setSplitted isSplitted
                    (if isSplitted then initialRouteName props
                     else MAIN_SCREEN_NAME))
    (dispatched (instance_of (run host builder props dimensions state events)))
  /\ forall w : Instance,
       let isSplitted := getIsSplitted (window w) (mainWidth props) in
       dispatched (effects props w) = dispatched w
       \/ dispatched (effects props w)
          = dispatched w
            ++ [setSplitted isSplitted
                  (if isSplitted then initialRouteName props
                   else MAIN_SCREEN_NAME)].
Proof.
  split.
  - unfold run, mount, update.
    apply (steps_invariant host builder props
             (fun w => Forall _ (dispatched w))).
    + intros w Hw. unfold effects; simpl. destruct (negb _); [|exact Hw].
      apply Forall_app. split; [exact Hw|].
      constructor; [|constructor]. now eexists.
    + intros e w Hw. now destruct e.
    + apply (rerender_invariant host builder props
               (fun w => Forall _ (dispatched w))).
      * intros w Hw. unfold effects; simpl. destruct (negb _); [|exact Hw].
        apply Forall_app. split; [exact Hw|].
        constructor; [|constructor]. now eexists.
      * constructor.
  - intros w isSplitted. unfold effects; simpl.
    destruct (negb _); [right | left]; reflexivity.
Qed.

Section Synchronization.

Context {R : SurfSplitRouter}.
Variables (host : Host) (builder : Builder) (props : Props).

Lemma effects_logged (w : Instance) :
  logged props (window w)
    (dispatched w
     ++ if bool_decide
             (deps_isSplitted w = Some (isSplittedOf props (window w)))
        then [] else [syncAction props (isSplittedOf props (window w))])
    (effects props w).
Proof.
  unfold logged, effects, isSplittedOf; simpl.
  split; [reflexivity|]. split; [reflexivity|].
  destruct (bool_decide _); simpl; [now rewrite app_nil_r | reflexivity].
Qed.

Lemma effects_keeps_logged (d : Dimensions) (log : list SurfSplitAction)
    (w : Instance) :
  logged props d log w -> logged props d log (effects props w).
Proof.
  intros (Hw & Hdeps & Hlog).
  pose proof (effects_logged w) as Hs. rewrite Hw, Hlog in Hs.
  now rewrite (bool_decide_eq_true_2 _ Hdeps), app_nil_r in Hs.
Qed.

Lemma update_logged (w final : Instance) :
  update host builder props w = Mounted final ->
  logged props (window w)
    (dispatched w
     ++ if bool_decide
             (deps_isSplitted w = Some (isSplittedOf props (window w)))
        then [] else [syncAction props (isSplittedOf props (window w))])
    final.
Proof.
  intros Hrun.
  refine (rerender_establishes host builder props
            (fun x => x = w) _ _ _ 2 w final eq_refl Hrun).
  - intros x ->. apply effects_logged.
  - intros x Hx. now apply effects_keeps_logged.
Qed.

Lemma last_cons {A : Type} (l : list A) (a d : A) :
  List.last (a :: l) d = List.last l a.
Proof.
  revert a d. induction l as [|b l IH]; intros a d; [reflexivity|].
  change (List.last (a :: b :: l) d) with (List.last (b :: l) d).
  now rewrite !IH.
Qed.

(** The log along a lifetime of resizes and store changes mixed. *)
Lemma events_logged (events : list Event) :
  forall (w final : Instance) (d : Dimensions) (log : list SurfSplitAction),
    logged props d log w ->
    fold_left (step host builder props) events (Mounted w) = Mounted final ->
    logged props (List.last (resizesOf events) d)
      (log ++ map (syncAction props)
                (edges (isSplittedOf props d)
                   (map (isSplittedOf props) (resizesOf events))))
      final.
Proof.
  induction events as [|e events IH]; intros w final d log Hlogged Hrun.
  - injection Hrun as <-. simpl. now rewrite app_nil_r.
  - destruct Hlogged as (Hw & Hdeps & Hlog).
    change (fold_left (step host builder props) events
              (update host builder props (deliver e w))
            = Mounted final) in Hrun.
    destruct (update host builder props (deliver e w))
      as [w1 | x w1] eqn:Hup; [|now rewrite step_crashed in Hrun].
    apply update_logged in Hup.
    destruct e as [d' | state']; simpl in Hup; rewrite Hdeps, Hlog in Hup.
    + specialize (IH w1 final d' _ Hup Hrun).
      cbn [resizesOf]. rewrite last_cons. cbn [map edges].
      destruct (isSplittedOf props d') eqn:E', (isSplittedOf props d) eqn:E;
        simpl in *; rewrite <- ?app_assoc in IH; simpl in IH;
        rewrite ?app_nil_r in IH; exact IH.
    + rewrite Hw in Hup.
      rewrite bool_decide_eq_true_2, app_nil_r in Hup by reflexivity.
      exact (IH w1 final d _ Hup Hrun).
Qed.

Hypothesis contract : honoursSetSplitted R.

Lemma effects_typed (w : Instance) : typed w -> typed (effects props w).
Proof.
  intros Hw b. unfold effects; simpl. intros [= <-].
  destruct (bool_decide _) eqn:E; simpl.
  - apply bool_decide_eq_true in E. now apply Hw.
  - apply contract.
Qed.

(** Under the contract, and with store changes that keep the mode, the
    state stays in the mode last synchronized. *)
Lemma events_typed (events : list Event) :
  forall l : Lifecycle,
    typed (instance_of l) ->
    keepsMode host builder props l events = true ->
    typed (instance_of (fold_left (step host builder props) events l)).
Proof.
  induction events as [|e events IH]; intros l Hl Hkeeps; [exact Hl|].
  cbn [keepsMode] in Hkeeps. apply andb_true_iff in Hkeeps as [He Hrest].
  cbn [fold_left]. apply IH; [|exact Hrest].
  destruct l as [w | x w]; simpl; [|exact Hl].
  unfold update.
  apply (rerender_invariant host builder props typed);
    [exact effects_typed|].
  destruct e as [d' | state']; simpl in *; [exact Hl|].
  apply String.eqb_eq in He. unfold typed in *. simpl.
  intros b Hb. rewrite He. now apply Hl.
Qed.

End Synchronization.

(** C1 (as the code has it). Over a lifetime of resizes and store changes
    in which no render throws, [setSplitted] is dispatched once when the
    navigator mounts, carrying the initial [isSplitted], and after that
    exactly once per change of [isSplitted] along the sequence of window
    updates, carrying the new value: never once per width change, and never
    on a resize or a store change that left the boolean as it was; this
    holds for every store. The window at the end is the last one
    delivered. When the store honours the message and its other changes
    keep the mode tag, the state ends in the mode of the last window
    observed. *)
Theorem setSplitted_on_mount_and_edges {R : SurfSplitRouter} (host : Host)
    (builder : Builder) (props : Props) (dimensions : Dimensions)
    (state : NavigationState) (events : list Event) (final : Instance) :
  run host builder props dimensions state events = Mounted final ->
  dispatched final
  = map (syncAction props)
      (isSplittedOf props dimensions
       :: edges (isSplittedOf props dimensions)
            (map (isSplittedOf props) (resizesOf events)))
  /\ window final = List.last (resizesOf events) dimensions
  /\ (honoursSetSplitted R ->
      keepsMode host builder props
        (mount host builder props dimensions state) events = true ->
      type (store final)
      = modeTag (getIsSplitted (List.last (resizesOf events) dimensions)
                   (mainWidth props))).
Proof.
  intros Hrun.
  assert (Hlogged :
    logged props (List.last (resizesOf events) dimensions)
      (map (syncAction props)
         (isSplittedOf props dimensions
          :: edges (isSplittedOf props dimensions)
               (map (isSplittedOf props) (resizesOf events))))
      final).
  { unfold run in Hrun.
    destruct (mount host builder props dimensions state) as [w1 | e w1]
      eqn:Hm; [|now rewrite step_crashed in Hrun].
    unfold mount in Hm. apply update_logged in Hm. simpl in Hm.
    exact (events_logged host builder props events w1 final dimensions _
             Hm Hrun). }
  destruct Hlogged as (Hwin & Hdeps & Hlog).
  split; [exact Hlog|]. split; [exact Hwin|].
  intros contract Hkeeps.
  assert (Htyped : typed final).
  { change final with (instance_of (Mounted final)). rewrite <- Hrun.
    unfold run.
    apply (events_typed host builder props contract); [|exact Hkeeps].
    unfold mount, update.
    apply (rerender_invariant host builder props typed);
      [exact (effects_typed props contract)|].
    intros b. simpl. discriminate. }
  exact (Htyped _ Hdeps).
Qed.

Lemma setSplitted_on_mount_and_edges_witness :
  let events :=
    [Resize (windowOf 200); StoreChange stackOfTwo; Resize (windowOf 250);
     Resize (windowOf 400)] in
  let final :=
    instance_of
      (run (R := tagRouter) phone describeAll props300 (windowOf 400)
         stackOfThree events) in
  dispatched final
  = [setSplitted true "detailA"; setSplitted false "main";
     setSplitted true "detailA"]
  /\ window final = windowOf 400
  /\ type (store final) = "split".
Proof.
  intros events final.
  destruct (setSplitted_on_mount_and_edges (R := tagRouter) phone describeAll
              props300 (windowOf 400) stackOfThree events final)
    as (Hlog & Hwin & Htype).
  - vm_compute. reflexivity.
  - split; [exact Hlog|]. split; [exact Hwin|]. apply Htype.
    + intros state isSplitted target. reflexivity.
    + vm_compute. reflexivity.
Defined.

(** Why the last part of C1 asks the store's other changes to keep the mode:
    a store change that serves a split-tagged state on a narrow window
    leaves the state tagged ["split"], and nothing is dispatched to undo
    it, since [isSplitted] did not change. *)
Example mode_follows_the_store :
  let final :=
    instance_of
      (run (R := tagRouter) phone describeAll props300 (windowOf 400)
         stackOfThree [Resize (windowOf 200); StoreChange scenario4]) in
  isSplittedOf props300 (window final) = false
  /\ type (store final) = "split"
  /\ keepsMode (R := tagRouter) phone describeAll props300
       (mount (R := tagRouter) phone describeAll props300 (windowOf 400)
          stackOfThree)
       [Resize (windowOf 200); StoreChange scenario4] = false.
Proof. vm_compute. repeat split. Qed.

(** C1, as stated, fails. (1) A navigator mounted on a wide window and
    resized once to another wide window has crossed no edge of
    [isSplitted], yet it has dispatched one [setSplitted], from the
    effect's run at mount. (2) A navigator mounted on a narrow window over
    a state with no main route and then widened has crossed one edge, but
    the render that saw it threw, so the only message is the one of the
    mount. *)
Lemma setSplitted_on_mount_counterexample :
  (let final :=
     instance_of
       (run (R := tagRouter) phone describeAll props300 (windowOf 400)
          stackOfThree [Resize (windowOf 500)]) in
   edges (isSplittedOf props300 (windowOf 400))
     [isSplittedOf props300 (windowOf 500)] = []
   /\ dispatched final = [setSplitted true "detailA"]
   /\ dispatched final
      <> map (syncAction (R := tagRouter) props300)
           (edges (isSplittedOf props300 (windowOf 400))
              [isSplittedOf props300 (windowOf 500)]))
  /\ (let detailsOnly :=
        {| routes := [detailA; detailB]; index := 0; type := "stack" |} in
      let after :=
        run (R := tagRouter) phone describeAll props300 (windowOf 200)
          detailsOnly [Resize (windowOf 400)] in
      edges (isSplittedOf props300 (windowOf 200))
        [isSplittedOf props300 (windowOf 400)] = [true]
      /\ dispatched (instance_of after) = [setSplitted false "main"]
      /\ exists w,
           after = Crashed (Error "You should provide main screen!") w).
Proof.
  split.
  - vm_compute. split; [reflexivity|]. split; [reflexivity | discriminate].
  - vm_compute. split; [reflexivity|]. split; [reflexivity|]. now eexists.
Qed.

(** ** The main route and the loaded set *)

Lemma array_map_ext {A B : Type} (f g : nat -> A -> Outcome B)
    (array : list A) :
  forall i : nat,
    (forall (j : nat) (x : A), array !! j = Some x -> f (i + j) x = g (i + j) x) ->
    array_map f i array = array_map g i array.
Proof.
  induction array as [|x rest IH]; intros i Hfg; simpl; [reflexivity|].
  pose proof (Hfg 0 x eq_refl) as H0. rewrite Nat.add_0_r in H0.
  rewrite H0, (IH (S i)); [reflexivity|].
  intros j x' Hj. replace (S i + j) with (i + S j) by lia. now apply Hfg.
Qed.

(** C5 (as the code has it). The renderer keeps the main route outside the
    conditional-mount mechanism: in a split render with main route [main],
    (1) the result does not depend on which positions of routes keyed like
    [main] are in [loaded], (2) a returned layout has the rendered
    descriptor of [main] in the main pane and [null] at the position of
    [main] in the detail container. The tracking effect, however, does not
    exempt it: (3) when the effect runs, the focused index is in [loaded]
    afterwards, whichever route it points at. *)
Theorem main_route_outside_loaded {R : SurfSplitRouter} (host : Host)
    (props : Props) (dimensions : Dimensions) (state : NavigationState)
    (navigation : Navigation) (descriptors : gmap string Descriptor)
    (visited : list nat) (main : Route) :
  getIsSplitted dimensions (mainWidth props) = true ->
  find (fun route => String.eqb (name route) MAIN_SCREEN_NAME) (routes state)
  = Some main ->
  (forall visited' : list nat,
     (forall (i : nat) (route : Route),
        routes state !! i = Some route -> key route <> key main ->
        includes visited' i = includes visited i) ->
     SurfSplitNavigator host props dimensions state navigation descriptors
       visited'
     = SurfSplitNavigator host props dimensions state navigation descriptors
         visited)
  /\ (forall layout : SplitLayout,
        SurfSplitNavigator host props dimensions state navigation descriptors
          visited = Returned (Split layout) ->
        (exists descriptor,
           descriptors !! key main = Some descriptor
           /\ main_children layout = render descriptor)
        /\ forall (i : nat) (route : Route),
             routes state !! i = Some route -> key route = key main ->
             pages layout !! i = Some None)
  /\ (forall w : Instance,
        deps_state w <> Some (store w) ->
        index (store w) ∈ loaded (effects props w)).
Proof.
  intros Hsplit Hfind. split; [|split].
  - intros visited' Hsame. unfold SurfSplitNavigator. rewrite Hsplit, Hfind.
    destruct (renderDescriptor descriptors (key main)); [|reflexivity].
    simpl.
    rewrite (array_map_ext (detailScene state descriptors visited' main)
               (detailScene state descriptors visited main)); [reflexivity|].
    intros j route Hj. simpl. unfold detailScene.
    destruct (String.eqb_spec (key route) (key main)) as [Heq | Hne];
      [reflexivity|].
    now rewrite (Hsame j route Hj Hne).
  - intros layout. unfold SurfSplitNavigator. rewrite Hsplit, Hfind.
    unfold renderDescriptor at 1.
    destruct (descriptors !! key main) as [descriptor|] eqn:Hd;
      [|discriminate].
    simpl.
    destruct (array_map _ 0 (routes state)) as [scenes|e] eqn:Hscenes;
      [|discriminate].
    simpl. intros [= <-]. simpl. split; [now exists descriptor|].
    intros i route Hi Hkey.
    destruct (array_map_Returned _ _ _ _ Hscenes) as [_ Hnth].
    destruct (Hnth i route Hi) as (scene & -> & Hcall). simpl in Hcall.
    unfold detailScene in Hcall. apply String.eqb_eq in Hkey.
    rewrite Hkey in Hcall. congruence.
  - intros w Hdeps. unfold effects; simpl.
    rewrite bool_decide_eq_false_2 by exact Hdeps. simpl.
    apply trackLoaded_focused.
Qed.

Lemma main_route_outside_loaded_witness :
  SurfSplitNavigator (R := tagRouter) phone props300 (windowOf 400) scenario4
    (helpers "split") (descriptorsOf describeAll scenario4) [0; 2]
  = SurfSplitNavigator (R := tagRouter) phone props300 (windowOf 400)
      scenario4 (helpers "split") (descriptorsOf describeAll scenario4) [2].
Proof.
  apply (main_route_outside_loaded (R := tagRouter) phone props300
           (windowOf 400) scenario4 (helpers "split")
           (descriptorsOf describeAll scenario4) [2] mainRoute);
    [reflexivity | reflexivity |].
  intros [|[|[|i]]] route Hi Hkey; simpl in Hi; try discriminate;
    try reflexivity.
  injection Hi as <-. now contradiction Hkey.
Defined.

(** C5, as stated, fails: mounting with the focus on the main route (index
    0 of [main, detailA, detailB]) puts index 0 into [loaded]. *)
Lemma main_index_loaded_counterexample :
  let final :=
    instance_of
      (mount (R := tagRouter) phone describeAll props300 (windowOf 400)
         stackOfThree) in
  routes (store final) !! 0 = Some mainRoute
  /\ name mainRoute = MAIN_SCREEN_NAME (SurfSplitRouter := tagRouter)
  /\ loaded final = [0]
  /\ 0 ∈ loaded final.
Proof.
  vm_compute. repeat split. apply list_elem_of_here.
Qed.

(** ** The focused index is tracked *)

Lemma effects_tracked {R : SurfSplitRouter} (props : Props) (w : Instance) :
  tracked w -> tracked (effects props w).
Proof.
  intros Hw state. unfold effects; simpl. intros [= <-].
  destruct (bool_decide (deps_state w = Some (store w))) eqn:E; simpl.
  - apply bool_decide_eq_true in E. now apply Hw.
  - apply trackLoaded_focused.
Qed.

(** X1. After every settled update of a navigator that is still mounted,
    the focused index of the state it shows is in [loaded] (section 8 of the
    spec), the main route's index included. *)
Theorem focused_index_is_loaded {R : SurfSplitRouter} (host : Host)
    (builder : Builder) (props : Props) (dimensions : Dimensions)
    (state : NavigationState) (events : list Event) (final : Instance) :
  run host builder props dimensions state events = Mounted final ->
  index (store final) ∈ loaded final.
Proof.
  intros Hrun.
  assert (Htracked : tracked final).
  { change final with (instance_of (Mounted final)). rewrite <- Hrun.
    unfold run, mount, update.
    apply (steps_invariant host builder props tracked).
    - intros w. apply effects_tracked.
    - intros e w Hw. now destruct e.
    - apply (rerender_invariant host builder props tracked).
      + intros w. apply effects_tracked.
      + intros s. simpl. discriminate. }
  assert (Hquiet : quiet props final).
  { unfold run in Hrun. revert Hrun.
    generalize (mount_quiet host builder props dimensions state).
    generalize (mount host builder props dimensions state).
    induction events as [|e events IH]; intros l Hl Hrun; simpl in Hrun.
    - subst l. now apply Hl.
    - apply (IH _ (step_quiet host builder props l e) Hrun). }
  apply Htracked. apply Hquiet.
Qed.

Lemma focused_index_is_loaded_witness :
  let final :=
    instance_of
      (run (R := tagRouter) phone describeAll props300 (windowOf 400)
         stackOfThree [StoreChange scenario4]) in
  index (store final) ∈ loaded final.
Proof.
  intros final.
  apply (focused_index_is_loaded (R := tagRouter) phone describeAll props300
           (windowOf 400) stackOfThree [StoreChange scenario4] final).
  vm_compute. reflexivity.
Defined.

(** ** The fallback hook over a lifetime *)

Lemma effect_agrees (h : Fallback.Hook) (now : Dimensions) :
  Fallback.same_fields (Fallback.dimensions (Fallback.effect h now)) now.
Proof.
  unfold Fallback.effect, Fallback.handleChange.
  destruct (Fallback.differs _ _) eqn:E; simpl.
  - apply same_fields_refl.
  - now apply differs_false.
Qed.

Lemma effect_listener (h : Fallback.Hook) (now : Dimensions) :
  Fallback.listener (Fallback.effect h now) = Some (Fallback.dimensions h).
Proof.
  unfold Fallback.effect, Fallback.handleChange.
  now destruct (Fallback.differs _ _).
Qed.

Lemma effect_unchanged (h : Fallback.Hook) (now : Dimensions) :
  Fallback.same_fields (Fallback.dimensions h) now ->
  Fallback.dimensions (Fallback.effect h now) = Fallback.dimensions h.
Proof.
  intros Hsame. apply differs_false in Hsame.
  unfold Fallback.effect, Fallback.handleChange. now rewrite Hsame.
Qed.

Lemma step_in_step (w : Watcher.World) (e : Watcher.Event) :
  in_step w -> in_step (Watcher.step w e).
Proof.
  unfold in_step. destruct w as [now h], e as [window|]; simpl.
  - intros Hinv. unfold Fallback.notify.
    destruct (Fallback.listener h) as [captured|] eqn:Hl; [|now rewrite Hl].
    unfold Fallback.handleChange.
    destruct (Fallback.differs captured window) eqn:E; simpl.
    + intros _. apply same_fields_refl.
    + rewrite Hl. intros [= ->]. now apply differs_false.
  - intros Hinv. unfold Watcher.flush.
    destruct (decide _) as [Hup | Hstale]; [exact Hinv|].
    intros _. apply effect_agrees.
Qed.

Lemma run_in_step (events : list Watcher.Event) :
  forall w : Watcher.World,
    in_step w -> in_step (fold_left Watcher.step events w).
Proof.
  induction events as [|e events IH]; intros w Hw; simpl; [exact Hw|].
  apply IH. now apply step_in_step.
Qed.

Lemma flush_twice (h : Fallback.Hook) (now : Dimensions) :
  let h2 := Watcher.flush (Watcher.flush h now) now in
  Fallback.listener h2 = Some (Fallback.dimensions h2).
Proof.
  simpl. set (h1 := Watcher.flush h now).
  assert (Hagree : Fallback.listener h1 = Some (Fallback.dimensions h1)
                   \/ Fallback.same_fields (Fallback.dimensions h1) now).
  { unfold h1, Watcher.flush.
    destruct (decide _) as [Hup | Hstale]; [now left|].
    right. apply effect_agrees. }
  unfold Watcher.flush.
  destruct (decide (Fallback.listener h1 = Some (Fallback.dimensions h1)))
    as [Hup | Hstale]; [exact Hup|].
  destruct Hagree as [Hup | Hsame]; [contradiction|].
  rewrite effect_listener. f_equal. symmetry. now apply effect_unchanged.
Qed.

(** X3. The fallback hook loses no update, however notifications and
    renders interleave: after any sequence of window changes and flushes
    (changes before the first subscription, and changes handled by a
    listener that closed over an outdated value, included), two flushes
    leave the registered listener closed over the present state and the
    state equal, field by field, to what [Dimensions.get] returns; a
    further flush changes nothing. *)
Theorem watcher_catches_up (initial : Dimensions)
    (events : list Watcher.Event) :
  let w :=
    Watcher.run initial (events ++ [Watcher.Flush; Watcher.Flush]) in
  Watcher.settled w
  /\ Watcher.current w = Watcher.current (Watcher.run initial events)
  /\ Watcher.step w Watcher.Flush = w.
Proof.
  simpl. unfold Watcher.run. rewrite fold_left_app.
  set (here := fold_left Watcher.step events (Watcher.mounted initial)).
  assert (Hhere : in_step here).
  { apply run_in_step. unfold in_step. simpl. discriminate. }
  pose proof (step_in_step _ Watcher.Flush
                (step_in_step _ Watcher.Flush Hhere)) as Hinv.
  simpl in *.
  pose proof (flush_twice (Watcher.hook here) (Watcher.current here))
    as Hup. simpl in Hup.
  split; [split; [exact Hup | exact (Hinv Hup)]|].
  split; [reflexivity|].
  unfold Watcher.step. simpl. f_equal. unfold Watcher.flush at 1.
  now destruct (decide _).
Qed.

(** ** More on the split render *)

Lemma split_render_inv {R : SurfSplitRouter} (host : Host) (props : Props)
    (dimensions : Dimensions) (state : NavigationState)
    (navigation : Navigation) (descriptors : gmap string Descriptor)
    (loaded : list nat) (layout : SplitLayout) :
  SurfSplitNavigator host props dimensions state navigation descriptors loaded
  = Returned (Split layout) ->
  exists main children,
    find (fun route => String.eqb (name route) MAIN_SCREEN_NAME) (routes state)
    = Some main
    /\ renderDescriptor descriptors (key main) = Returned children
    /\ array_map (detailScene state descriptors loaded main) 0 (routes state)
       = Returned (pages layout)
    /\ layout = {| provided := navigation;
                   body_style := get (splitStyles props) "body";
                   main_style := get (splitStyles props) "main";
                   main_children := children;
                   detail_style := get (splitStyles props) "detail";
                   container_style := get styles "pages";
                   pages := pages layout |}.
Proof.
  unfold SurfSplitNavigator.
  destruct (getIsSplitted dimensions (mainWidth props)).
  - destruct (find _ (routes state)) as [main|] eqn:Hfind; [|discriminate].
    destruct (renderDescriptor descriptors (key main)) as [children|e]
      eqn:Hmain; [|discriminate].
    simpl.
    destruct (array_map _ 0 (routes state)) as [scenes|e] eqn:Hscenes;
      [|discriminate].
    simpl. intros [= <-]. exists main, children. simpl.
    split; [reflexivity|]. split; [exact Hmain|]. split; [exact Hscenes|].
    reflexivity.
  - destruct (negb _ && _); discriminate.
Qed.

(** X4. In a split layout at most one detail scene is visible, and it is the
    one at the focused index: every scene at another position has
    [isVisible] false (so when the focus is on the main route no detail
    scene is visible at all), and every scene is keyed by the route at its
    position. *)
Theorem at_most_one_visible {R : SurfSplitRouter} (host : Host) (props : Props)
    (dimensions : Dimensions) (state : NavigationState)
    (navigation : Navigation) (descriptors : gmap string Descriptor)
    (loaded : list nat) (layout : SplitLayout) (i : nat)
    (scene : ResourceSavingScene) :
  SurfSplitNavigator host props dimensions state navigation descriptors loaded
  = Returned (Split layout) ->
  pages layout !! i = Some (Some scene) ->
  isVisible scene = bool_decide (i = index state)
  /\ exists route main,
       routes state !! i = Some route
       /\ scene_key scene = key route
       /\ find (fun r => String.eqb (name r) MAIN_SCREEN_NAME) (routes state)
          = Some main
       /\ key route <> key main.
Proof.
  intros Hrender Hpage.
  destruct (split_render_inv _ _ _ _ _ _ _ _ Hrender)
    as (main & children & Hfind & _ & Hscenes & _).
  destruct (array_map_Returned _ _ _ _ Hscenes) as [Hlen Hnth].
  assert (Hlt : i < length (routes state)).
  { rewrite <- Hlen. eapply lookup_lt_Some. exact Hpage. }
  destruct (lookup_lt_is_Some_2 _ _ Hlt) as [route Hroute].
  destruct (Hnth i route Hroute) as (page & Hpage' & Hcall).
  rewrite Hpage in Hpage'. injection Hpage' as <-.
  simpl in Hcall. unfold detailScene in Hcall.
  destruct (String.eqb_spec (key route) (key main)) as [Hkey | Hkey];
    [discriminate|].
  destruct (negb (includes loaded i) && negb (Nat.eqb (index state) i));
    [discriminate|].
  destruct (renderDescriptor descriptors (key route)) as [c|e];
    [|discriminate].
  simpl in Hcall. injection Hcall as <-. simpl. split.
  - destruct (Nat.eqb_spec (index state) i) as [Heq | Hne]; symmetry.
    + apply bool_decide_eq_true. congruence.
    + apply bool_decide_eq_false. congruence.
  - exists route, main. split; [exact Hroute|]. split; [reflexivity|].
    split; [exact Hfind | exact Hkey].
Qed.

Lemma at_most_one_visible_witness :
  isVisible sceneB = bool_decide (2 = index scenario4)
  /\ exists route main,
       routes scenario4 !! 2 = Some route
       /\ scene_key sceneB = key route
       /\ find (fun r => String.eqb (name r)
                           (MAIN_SCREEN_NAME (SurfSplitRouter := tagRouter)))
            (routes scenario4) = Some main
       /\ key route <> key main.
Proof.
  apply (at_most_one_visible (R := tagRouter) phone props300 (windowOf 400)
           scenario4 (helpers "split") (descriptorsOf describeAll scenario4)
           [2] scenario4Layout 2 sceneB).
  - vm_compute. reflexivity.
  - reflexivity.
Defined.

Lemma renderDescriptor_Returned (descriptors : gmap string Descriptor)
    (k : string) :
  (exists children, renderDescriptor descriptors k = Returned children)
  <-> is_Some (descriptors !! k).
Proof.
  unfold renderDescriptor. destruct (descriptors !! k) as [d|].
  - split; [now eexists | now eexists].
  - split; [intros [c Hc]; discriminate | intros [d Hd]; discriminate].
Qed.

Lemma shown_spec (state : NavigationState) (loaded : list nat) (i : nat) :
  negb (includes loaded i) && negb (Nat.eqb (index state) i) = false
  <-> i = index state \/ i ∈ loaded.
Proof.
  rewrite andb_false_iff, !negb_false_iff, includes_spec, Nat.eqb_eq.
  split; intros [H | H]; auto.
Qed.

(** X5. Which split renders return: with the split branch taken, the
    component returns a layout exactly when a route named
    [MAIN_SCREEN_NAME] exists, the first such route has a descriptor, and so
    has every route keyed differently that is focused or loaded. A missing
    descriptor of a route that is neither focused nor loaded does no harm;
    a missing one of a shown route makes the whole render throw. *)
Theorem split_render_returns_iff {R : SurfSplitRouter} (host : Host)
    (props : Props) (dimensions : Dimensions) (state : NavigationState)
    (navigation : Navigation) (descriptors : gmap string Descriptor)
    (loaded : list nat) :
  getIsSplitted dimensions (mainWidth props) = true ->
  (exists layout,
     SurfSplitNavigator host props dimensions state navigation descriptors
       loaded = Returned (Split layout))
  <-> exists main,
        find (fun route => String.eqb (name route) MAIN_SCREEN_NAME)
          (routes state) = Some main
        /\ is_Some (descriptors !! key main)
        /\ forall (i : nat) (route : Route),
             routes state !! i = Some route -> key route <> key main ->
             i = index state \/ i ∈ loaded ->
             is_Some (descriptors !! key route).
Proof.
  intros Hsplit. split.
  - intros [layout Hrender].
    destruct (split_render_inv _ _ _ _ _ _ _ _ Hrender)
      as (main & children & Hfind & Hmain & Hscenes & _).
    exists main. split; [exact Hfind|]. split.
    { apply renderDescriptor_Returned. now exists children. }
    intros i route Hroute Hkey Hshown.
    destruct (array_map_Returned _ _ _ _ Hscenes) as [_ Hnth].
    destruct (Hnth i route Hroute) as (page & _ & Hcall).
    simpl in Hcall. unfold detailScene in Hcall.
    apply String.eqb_neq in Hkey. rewrite Hkey in Hcall.
    apply shown_spec in Hshown. rewrite Hshown in Hcall.
    apply renderDescriptor_Returned.
    destruct (renderDescriptor descriptors (key route)) as [c|e];
      [now exists c | discriminate].
  - intros (main & Hfind & Hmain & Hshown).
    unfold SurfSplitNavigator. rewrite Hsplit, Hfind.
    apply renderDescriptor_Returned in Hmain. destruct Hmain as [c ->].
    simpl.
    destruct (array_map_total (detailScene state descriptors loaded main)
                (routes state) 0) as [scenes ->]; [|now eexists].
    intros i route Hroute. simpl. unfold detailScene.
    destruct (String.eqb_spec (key route) (key main)) as [Hkey | Hkey];
      [now eexists|].
    destruct (negb (includes loaded i) && negb (Nat.eqb (index state) i))
      eqn:Hgate; [now eexists|].
    apply shown_spec in Hgate.
    destruct (proj2 (renderDescriptor_Returned descriptors (key route))
                (Hshown i route Hroute Hkey Hgate)) as [c' ->].
    now eexists.
Qed.

Lemma split_render_returns_iff_witness :
  (exists layout,
     SurfSplitNavigator (R := tagRouter) phone props300 (windowOf 400)
       scenario4 (helpers "split") twoDescriptors [] = Returned (Split layout))
  /\ ~ (exists layout,
          SurfSplitNavigator (R := tagRouter) phone props300 (windowOf 400)
            scenario4 (helpers "split") twoDescriptors [2]
          = Returned (Split layout)).
Proof.
  split.
  - apply (split_render_returns_iff (R := tagRouter) phone props300
             (windowOf 400) scenario4 (helpers "split") twoDescriptors []);
      [reflexivity|].
    exists mainRoute. split; [reflexivity|]. split; [now eexists|].
    intros [|[|[|i]]] route Hroute Hkey Hshown; simpl in Hroute;
      try discriminate; injection Hroute as <-.
    + now contradiction Hkey.
    + now eexists.
    + destruct Hshown as [Hfocus | Hin]; [discriminate|].
      apply list_elem_of_In in Hin. contradiction.
  - intros Hreturns.
    apply (split_render_returns_iff (R := tagRouter) phone props300
             (windowOf 400) scenario4 (helpers "split") twoDescriptors [2])
      in Hreturns; [|reflexivity].
    destruct Hreturns as (main & Hfind & _ & Hshown).
    injection Hfind as <-.
    destruct (Hshown 2 detailB eq_refl) as [d Hd]; [discriminate| |].
    + right. apply list_elem_of_here.
    + vm_compute in Hd. discriminate.
Defined.

(** X6. The caller's [splitStyles] replace the default styles wholesale:
    when [screenOptions.splitStyles] is truthy the three regions of a split
    layout take their styles from it slot by slot (a slot it leaves out is
    [undefined], not the default), and when it is absent or falsy all three
    take the defaults of the style sheet. The detail container always has
    the style sheet's [pages] style. *)
Theorem splitStyles_all_or_nothing {R : SurfSplitRouter} (host : Host)
    (props : Props) (dimensions : Dimensions) (state : NavigationState)
    (navigation : Navigation) (descriptors : gmap string Descriptor)
    (loaded : list nat) (layout : SplitLayout) :
  SurfSplitNavigator host props dimensions state navigation descriptors loaded
  = Returned (Split layout) ->
  (truthy (splitStylesFromOptions props) = true ->
   body_style layout = get (splitStylesFromOptions props) "body"
   /\ main_style layout = get (splitStylesFromOptions props) "main"
   /\ detail_style layout = get (splitStylesFromOptions props) "detail")
  /\ (truthy (splitStylesFromOptions props) = false ->
      body_style layout = get styles "body"
      /\ main_style layout = get styles "main"
      /\ detail_style layout = get styles "detail")
  /\ container_style layout = get styles "pages".
Proof.
  intros Hrender.
  destruct (split_render_inv _ _ _ _ _ _ _ _ Hrender)
    as (main & children & _ & _ & _ & ->).
  simpl. unfold splitStyles.
  split; [|split; [|reflexivity]]; intros Htruthy; rewrite Htruthy;
    repeat split; reflexivity.
Qed.

Lemma splitStyles_all_or_nothing_witness :
  body_style bodyOnlyLayout = VObject [("padding", VNumber 0)]
  /\ main_style bodyOnlyLayout = VUndefined
  /\ detail_style bodyOnlyLayout = VUndefined.
Proof.
  apply (proj1 (splitStyles_all_or_nothing (R := tagRouter) phone
                  propsBodyOnly (windowOf 400) scenario4 (helpers "split")
                  (descriptorsOf describeAll scenario4) [2] bodyOnlyLayout
                  ltac:(vm_compute; reflexivity))).
  reflexivity.
Defined.

(** ** More on the lifetime of a navigator *)

Lemma trackLoaded_NoDup (loaded : list nat) (state : NavigationState) :
  NoDup loaded -> NoDup (trackLoaded loaded state).
Proof.
  intros Hnd. unfold trackLoaded.
  destruct (includes loaded (index state)) eqn:E; simpl; [exact Hnd|].
  apply NoDup_app. split; [exact Hnd|]. split.
  - intros x Hx Hx'. apply list_elem_of_singleton in Hx'. subst x.
    apply includes_spec in Hx. congruence.
  - apply NoDup_singleton.
Qed.

(** X7. The loaded array never holds an index twice, at any point of any
    lifetime: an index is appended only when [includes] does not find it. *)
Theorem loaded_NoDup {R : SurfSplitRouter} (host : Host) (builder : Builder)
    (props : Props) (dimensions : Dimensions) (state : NavigationState)
    (events : list Event) :
  NoDup (loaded (instance_of (run host builder props dimensions state events))).
Proof.
  assert (Heff : forall w, NoDup (loaded w) -> NoDup (loaded (effects props w))).
  { intros w Hw. unfold effects; simpl. destruct (negb _); [|exact Hw].
    now apply trackLoaded_NoDup. }
  unfold run, mount, update.
  apply (steps_invariant host builder props (fun w => NoDup (loaded w)));
    [exact Heff | intros e w Hw; now destruct e |].
  apply (rerender_invariant host builder props (fun w => NoDup (loaded w)));
    [exact Heff | apply NoDup_nil_2].
Qed.

Lemma alternates_snoc (flags : list bool) (b : bool) :
  alternates flags = true -> last flags <> Some b ->
  alternates (flags ++ [b]) = true.
Proof.
  induction flags as [|a [|a' rest] IH]; intros Halt Hlast.
  - reflexivity.
  - simpl in *. rewrite andb_true_r.
    destruct a, b; try reflexivity; now contradiction Hlast.
  - change (negb (Bool.eqb a a') && alternates (a' :: rest) = true) in Halt.
    apply andb_true_iff in Halt as [Hne Halt].
    change (negb (Bool.eqb a a') && alternates ((a' :: rest) ++ [b]) = true).
    rewrite Hne. simpl. now apply IH.
Qed.

(** The flags of the log alternate, and the last one is the dependency the
    first effect saw last. *)
Lemma effects_alternates {R : SurfSplitRouter} (props : Props) (w : Instance) :
  alternates (map actionFlag (dispatched w)) = true
  /\ last (map actionFlag (dispatched w)) = deps_isSplitted w ->
  alternates (map actionFlag (dispatched (effects props w))) = true
  /\ last (map actionFlag (dispatched (effects props w)))
     = deps_isSplitted (effects props w).
Proof.
  intros [Halt Hlast]. unfold effects; simpl.
  destruct (bool_decide _) eqn:E; simpl.
  - apply bool_decide_eq_true in E. split; [exact Halt | congruence].
  - apply bool_decide_eq_false in E.
    rewrite map_app. simpl. split.
    + apply alternates_snoc; [exact Halt | congruence].
    + apply last_snoc.
Qed.

(** X8. The navigator never dispatches the same mode twice in a row: in
    the log of [setSplitted] actions of any lifetime (resizes and store
    changes mixed, crashed or not) neighbouring actions carry opposite
    booleans. *)
Theorem setSplitted_alternates {R : SurfSplitRouter} (host : Host)
    (builder : Builder) (props : Props) (dimensions : Dimensions)
    (state : NavigationState) (events : list Event) :
  alternates
    (map actionFlag
       (dispatched
          (instance_of (run host builder props dimensions state events))))
  = true.
Proof.
  unfold run, mount, update.
  refine (proj1 (steps_invariant host builder props
                   (fun w => alternates (map actionFlag (dispatched w)) = true
                             /\ last (map actionFlag (dispatched w))
                                = deps_isSplitted w) _ _ events _ _)).
  - intros w. apply effects_alternates.
  - intros e w Hw. now destruct e.
  - apply (rerender_invariant host builder props
             (fun w => alternates (map actionFlag (dispatched w)) = true
                       /\ last (map actionFlag (dispatched w))
                          = deps_isSplitted w)).
    + intros w. apply effects_alternates.
    + now split.
Qed.

Section MoreLifecycle.

Context {R : SurfSplitRouter}.
Variables (host : Host) (builder : Builder) (props : Props).

Lemma commit_narrow (w : Instance) :
  isSplittedOf props (window w) = false ->
  commit host builder props w = Mounted (effects props w).
Proof.
  unfold isSplittedOf, commit, SurfSplitNavigator. intros ->.
  now destruct (negb _ && _).
Qed.

Lemma rerender_narrow (fuel : nat) :
  forall w : Instance,
    isSplittedOf props (window w) = false ->
    exists final,
      rerender fuel host builder props w = Mounted final
      /\ window final = window w.
Proof.
  induction fuel as [|fuel IH]; intros w Hw; simpl;
    rewrite (commit_narrow w Hw); destruct (scheduled _ _); eauto.
  destruct (IH (effects props w) Hw) as (final & -> & Hwin). eauto.
Qed.

Lemma run_quiet (dimensions : Dimensions) (state : NavigationState)
    (events : list Event) (w : Instance) :
  run host builder props dimensions state events = Mounted w ->
  quiet props w.
Proof.
  unfold run.
  generalize (mount_quiet host builder props dimensions state).
  generalize (mount host builder props dimensions state).
  induction events as [|e events IH]; intros l Hl Hrun; simpl in Hrun.
  - now apply Hl.
  - exact (IH _ (step_quiet host builder props l e) Hrun).
Qed.

End MoreLifecycle.

(** X9. A navigator that only ever sees windows of stack width never
    crashes, whatever the store serves: with the first window and every
    resize at or below [mainWidth], every lifetime stays mounted, even over
    states with no route named [MAIN_SCREEN_NAME] and with descriptors
    missing. *)
Theorem narrow_windows_never_crash {R : SurfSplitRouter} (host : Host)
    (builder : Builder) (props : Props) (dimensions : Dimensions)
    (state : NavigationState) (events : list Event) :
  getIsSplitted dimensions (mainWidth props) = false ->
  Forall (fun e => widens props e = false) events ->
  exists final,
    run host builder props dimensions state events = Mounted final
    /\ isSplittedOf props (window final) = false.
Proof.
  intros Hfirst Hevents. unfold run.
  destruct (rerender_narrow host builder props 2
              {| window := dimensions; store := state; loaded := [];
                 deps_isSplitted := None; deps_state := None;
                 dispatched := [] |} Hfirst)
    as (w0 & Hmount & Hw0).
  unfold mount, update. rewrite Hmount. simpl in Hw0.
  assert (Hnarrow : isSplittedOf props (window w0) = false)
    by now rewrite Hw0.
  clear Hmount Hw0. revert w0 Hnarrow.
  induction Hevents as [|e events He _ IH]; intros w Hw; simpl.
  - now exists w.
  - assert (Hd : isSplittedOf props (window (deliver e w)) = false).
    { destruct e as [d | s]; simpl; [exact He | exact Hw]. }
    destruct (rerender_narrow host builder props 2 _ Hd)
      as (w1 & Hup & Hw1).
    unfold update. rewrite Hup. apply IH. now rewrite Hw1.
Qed.

Lemma narrow_windows_never_crash_witness :
  exists final,
    run (R := tagRouter) phone describeAll props300 (windowOf 200)
      {| routes := []; index := 0; type := "stack" |}
      [Resize (windowOf 300);
       StoreChange {| routes := [detailA]; index := 5; type := "split" |}]
    = Mounted final
    /\ isSplittedOf props300 (window final) = false.
Proof.
  apply (narrow_windows_never_crash (R := tagRouter) phone describeAll
           props300 (windowOf 200)).
  - reflexivity.
  - repeat constructor.
Defined.

(** X10. What one event dispatches, in a lifetime of resizes and store
    changes mixed. From a mounted navigator, an event that leaves
    [isSplitted] as it was (every store change, and every resize that
    stays on the same side of [mainWidth]) dispatches nothing, whether or
    not a render throws; an event that flips it, if the navigator stays
    mounted, dispatches exactly one [setSplitted], carrying the new
    boolean. The window afterwards is the one the event delivered. *)
Theorem dispatch_per_event {R : SurfSplitRouter} (host : Host)
    (builder : Builder) (props : Props) (dimensions : Dimensions)
    (state : NavigationState) (events : list Event) (w : Instance)
    (e : Event) :
  run host builder props dimensions state events = Mounted w ->
  let before := isSplittedOf props (window w) in
  let after := isSplittedOf props (window (deliver e w)) in
  let next := run host builder props dimensions state (events ++ [e]) in
  (after = before -> dispatched (instance_of next) = dispatched w)
  /\ (after <> before ->
      forall w', next = Mounted w' ->
        dispatched w' = dispatched w ++ [syncAction props after])
  /\ window (instance_of next) = window (deliver e w).
Proof.
  intros Hrun before after next.
  pose proof (run_quiet host builder props _ _ _ _ Hrun) as [Hdeps _].
  assert (Hnext : next = update host builder props (deliver e w)).
  { unfold next, run. rewrite fold_left_app. unfold run in Hrun.
    now rewrite Hrun. }
  assert (Hdeps' : deps_isSplitted (deliver e w) = Some before)
    by now destruct e.
  assert (Hlog : dispatched (deliver e w) = dispatched w) by now destruct e.
  rewrite Hnext. unfold update. split; [|split].
  - intros Hsame.
    refine (proj2 (proj2 (rerender_invariant host builder props
              (fun x => window x = window (deliver e w)
                        /\ deps_isSplitted x = Some after
                        /\ dispatched x = dispatched w) _ 2 _ _))).
    + intros x (Hwin & Hd & Hl). unfold effects; simpl.
      fold (isSplittedOf props (window x)). rewrite Hwin. fold after.
      rewrite (bool_decide_eq_true_2 _ Hd). simpl. now repeat split.
    + split; [reflexivity|]. split; [congruence | exact Hlog].
  - intros Hflip w' Hw'.
    refine (proj2 (proj2 (rerender_establishes host builder props
              (fun x => x = deliver e w)
              (fun x => window x = window (deliver e w)
                        /\ deps_isSplitted x = Some after
                        /\ dispatched x
                           = dispatched w ++ [syncAction props after])
              _ _ 2 _ w' eq_refl Hw'))).
    + intros x ->. unfold effects; simpl.
      fold (isSplittedOf props (window (deliver e w))). fold after.
      rewrite bool_decide_eq_false_2 by (rewrite Hdeps'; congruence).
      simpl. rewrite Hlog. now repeat split.
    + intros x (Hwin & Hd & Hl). unfold effects; simpl.
      fold (isSplittedOf props (window x)). rewrite Hwin. fold after.
      rewrite (bool_decide_eq_true_2 _ Hd). simpl. now repeat split.
  - apply (rerender_invariant host builder props
             (fun x => window x = window (deliver e w)));
      [intros x Hx; exact Hx | reflexivity].
Qed.

Lemma dispatch_per_event_witness :
  let w :=
    instance_of
      (run (R := tagRouter) phone describeAll props300 (windowOf 400)
         stackOfThree [Resize (windowOf 200)]) in
  dispatched
    (instance_of
       (run (R := tagRouter) phone describeAll props300 (windowOf 400)
          stackOfThree ([Resize (windowOf 200)] ++ [StoreChange scenario4])))
  = dispatched w.
Proof.
  intros w.
  apply (dispatch_per_event (R := tagRouter) phone describeAll props300
           (windowOf 400) stackOfThree [Resize (windowOf 200)] w
           (StoreChange scenario4)).
  - vm_compute. reflexivity.
  - reflexivity.
Defined.

(** ** What a crash means *)

Lemma array_map_Threw {A B : Type} (f : nat -> A -> Outcome B)
    (array : list A) :
  forall (i : nat) (e : Exception),
    array_map f i array = Threw e ->
    exists (j : nat) (x : A), array !! j = Some x /\ f (i + j) x = Threw e.
Proof.
  induction array as [|x rest IH]; intros i e; simpl; [discriminate|].
  unfold mbind, Outcome_bind.
  destruct (f i x) as [y|e'] eqn:Ey.
  - destruct (array_map f (S i) rest) as [ys|e''] eqn:Er; [discriminate|].
    intros [= ->]. destruct (IH _ _ Er) as (j & x' & Hj & Hf).
    exists (S j), x'. split; [exact Hj|].
    now replace (i + S j) with (S i + j) by lia.
  - intros [= ->]. exists 0, x. rewrite Nat.add_0_r. now split.
Qed.

Lemma render_Threw {R : SurfSplitRouter} (host : Host) (props : Props)
    (dimensions : Dimensions) (state : NavigationState)
    (navigation : Navigation) (descriptors : gmap string Descriptor)
    (loaded : list nat) (e : Exception) :
  SurfSplitNavigator host props dimensions state navigation descriptors loaded
  = Threw e ->
  getIsSplitted dimensions (mainWidth props) = true
  /\ (e = Error ("You should provide " ++ MAIN_SCREEN_NAME ++ " screen!")
      /\ Forall (fun route => name route <> MAIN_SCREEN_NAME) (routes state)
      \/ e = TypeError "render"
         /\ exists route, route ∈ routes state
                          /\ descriptors !! key route = None).
Proof.
  unfold SurfSplitNavigator.
  destruct (getIsSplitted dimensions (mainWidth props));
    [|destruct (negb _ && _); discriminate].
  intros Hthrew. split; [reflexivity|].
  destruct (find _ (routes state)) as [main|] eqn:Hfind.
  - right. unfold renderDescriptor at 1 in Hthrew.
    destruct (descriptors !! key main) as [d|] eqn:Hd.
    + simpl in Hthrew.
      destruct (array_map _ 0 (routes state)) as [scenes|e'] eqn:Hscenes;
        [discriminate|].
      injection Hthrew as ->.
      destruct (array_map_Threw _ _ _ _ Hscenes) as (j & route & Hj & Hf).
      simpl in Hf. unfold detailScene, renderDescriptor in Hf.
      destruct (String.eqb _ _); [discriminate|].
      destruct (negb _ && _); [discriminate|].
      destruct (descriptors !! key route) as [d'|] eqn:Hd'; [discriminate|].
      injection Hf as <-. split; [reflexivity|].
      exists route. split; [|exact Hd'].
      eapply list_elem_of_lookup_2. exact Hj.
    + injection Hthrew as <-. split; [reflexivity|].
      exists main. split; [|exact Hd].
      apply list_elem_of_In. eapply find_some. exact Hfind.
  - left. injection Hthrew as <-. split; [reflexivity|].
    apply find_None_Forall in Hfind.
    eapply Forall_impl; [exact Hfind|].
    intros route Hne. now apply String.eqb_neq.
Qed.

Lemma rerender_Crashed {R : SurfSplitRouter} (host : Host) (builder : Builder)
    (props : Props) (fuel : nat) :
  forall (w crashed : Instance) (e : Exception),
    rerender fuel host builder props w = Crashed e crashed ->
    commit host builder props crashed = Crashed e crashed.
Proof.
  assert (Hself : forall (w crashed : Instance) (e : Exception),
            commit host builder props w = Crashed e crashed ->
            commit host builder props crashed = Crashed e crashed).
  { intros w crashed e Hc.
    destruct (commit_cases host builder props w) as [Hm | [e0 Hm]];
      rewrite Hm in Hc; [discriminate|].
    injection Hc as -> <-. exact Hm. }
  induction fuel as [|fuel IH]; intros w crashed e; simpl;
    destruct (commit host builder props w) as [w'|e' w'] eqn:Hc.
  - destruct (scheduled _ _); discriminate.
  - intros [= -> ->]. exact (Hself _ _ _ Hc).
  - destruct (scheduled _ _); [apply IH | discriminate].
  - intros [= -> ->]. exact (Hself _ _ _ Hc).
Qed.

(** X11. The only ways a navigator goes down. When a lifetime ends crashed,
    the render that threw was a split render (the window was wider than
    [mainWidth]) of the instance the crash left, and the exception is one
    of two: the [Error] naming [MAIN_SCREEN_NAME], with no route of that
    name in the state shown; or a [TypeError] from reading [render] of a
    missing descriptor, with a route of the state that has none. *)
Theorem crash_causes {R : SurfSplitRouter} (host : Host) (builder : Builder)
    (props : Props) (dimensions : Dimensions) (state : NavigationState)
    (events : list Event) (e : Exception) (w : Instance) :
  run host builder props dimensions state events = Crashed e w ->
  getIsSplitted (window w) (mainWidth props) = true
  /\ (e = Error ("You should provide " ++ MAIN_SCREEN_NAME ++ " screen!")
      /\ Forall (fun route => name route <> MAIN_SCREEN_NAME)
           (routes (store w))
      \/ e = TypeError "render"
         /\ exists route, route ∈ routes (store w)
                          /\ descriptorsOf builder (store w) !! key route
                             = None).
Proof.
  intros Hrun.
  assert (Hcommit : commit host builder props w = Crashed e w).
  { unfold run in Hrun. revert Hrun.
    assert (Hmount : forall e' w',
              mount host builder props dimensions state = Crashed e' w' ->
              commit host builder props w' = Crashed e' w').
    { intros e' w'. apply rerender_Crashed. }
    revert Hmount. generalize (mount host builder props dimensions state).
    induction events as [|ev events IH]; intros l Hl Hrun; simpl in Hrun.
    - now apply Hl.
    - apply (IH _ ) in Hrun; [exact Hrun|].
      intros e' w'. destruct l as [x | e0 x]; simpl.
      + apply rerender_Crashed.
      + apply Hl. }
  unfold commit in Hcommit.
  destruct (SurfSplitNavigator _ _ _ _ _ _ _) as [t|e'] eqn:Hrender;
    [discriminate|].
  injection Hcommit as ->. exact (render_Threw _ _ _ _ _ _ _ _ Hrender).
Qed.

Lemma crash_causes_witness :
  let crashed :=
    instance_of
      (run (R := tagRouter) phone describeAll props300 (windowOf 200)
         {| routes := [detailA; detailB]; index := 0; type := "stack" |}
         [Resize (windowOf 400)]) in
  getIsSplitted (window crashed) (mainWidth props300) = true
  /\ (Error "You should provide main screen!"
      = Error ("You should provide "
               ++ MAIN_SCREEN_NAME (SurfSplitRouter := tagRouter)
               ++ " screen!")
      /\ Forall (fun route =>
                   name route <> MAIN_SCREEN_NAME (SurfSplitRouter := tagRouter))
           (routes (store crashed))
      \/ Error "You should provide main screen!" = TypeError "render"
         /\ exists route, route ∈ routes (store crashed)
                          /\ descriptorsOf describeAll (store crashed)
                               !! key route = None).
Proof.
  intros crashed.
  apply (crash_causes (R := tagRouter) phone describeAll props300
           (windowOf 200)
           {| routes := [detailA; detailB]; index := 0; type := "stack" |}
           [Resize (windowOf 400)]).
  vm_compute. reflexivity.
Defined.
